(** * MediBot AI agent: triage API, summary chain and the triage state machine

    A shallow embedding of the Python sources

    - [aiagent/api/main.py]            (FastAPI endpoints of the AI agent),
    - [aiagent/chains/summary_chain.py] (patient and clinician summaries),
    - [aiagent/medical_llama/main.py]   (patients, conversation history
      and [triage_patient]),
    - [aiagent/medical_llama/database.py] (the tables),

    of the triage state machine of the specification (module [Spec]: the
    workflow graph itself is not among the sources), and the properties of
    the specification that concern them.

    Python values are an inductive type of JSON-like values, exceptions are
    values of an error type, and a function that may raise returns an
    [outcome].  Code that calls the compiled LangGraph workflow
    ([care_app.invoke]) threads an abstract world [W] (the workflow owns the
    case store and talks to the language model), so a handler is a function
    [W -> outcome _ * W]. *)

From Stdlib Require Import ZArith Ascii Floats.
From stdpp Require Import base option list strings pretty gmap sorting.

#[local] Set Warnings "-register-all,-inexact-float".
#[local] Open Scope Z_scope.
#[local] Open Scope string_scope.

(** ** Python values *)

Module Py.

(** JSON-like values.  A [dict] keeps its keys in insertion order, as Python's
    does (iteration over a dict, e.g. by [str.join], yields the keys in that
    order), so it is an association list, with one binding per key; lookup
    takes the first binding of the key. *)
Inductive pyval : Type :=
  | PNone
  | PBool (b : bool)
  | PInt (z : Z)
  | PFloat (f : float)
  | PStr (s : string)
  | PList (l : list pyval)
  | PDict (d : list (string * pyval)).

Abbreviation dict := (list (string * pyval)).

(** Exceptions (all below [Exception]).  [HTTPException] is FastAPI's; every
    other exception is kept as its class name and its message [str(e)]. *)
Inductive pyexn : Type :=
  | HTTPException (status_code : Z) (detail : string)
  | PyError (cls : string) (msg : string).

(** [str(e)]: Starlette's [HTTPException.__str__] is
    [f"{status_code}: {detail}"]. *)
Definition exn_str (e : pyexn) : string :=
  match e with
  | HTTPException sc d => pretty sc +:+ ": " +:+ d
  | PyError _ msg => msg
  end.

Definition is_HTTPException (e : pyexn) : bool :=
  match e with HTTPException _ _ => true | PyError _ _ => false end.

(** The result of running Python code that may raise. *)
Inductive outcome (A : Type) : Type :=
  | Ret (a : A)
  | Raise (e : pyexn).
Arguments Ret {A} a.
Arguments Raise {A} e.

Definition obind {A B} (f : A -> outcome B) (m : outcome A) : outcome B :=
  match m with Ret a => f a | Raise e => Raise e end.

#[export] Instance outcome_ret : MRet outcome := @Ret.
#[export] Instance outcome_bind : MBind outcome := @obind.

(** [try: m  except Exception as e: h e] *)
Definition try_except {A} (m : outcome A) (h : pyexn -> outcome A) : outcome A :=
  match m with Ret a => Ret a | Raise e => h e end.

Definition is_Ret {A} (m : outcome A) : bool :=
  match m with Ret _ => true | Raise _ => false end.

(** *** Strings as text

    A Python [str] is a sequence of code points; here it is the UTF-8 byte
    string, cut into code points where the code iterates, slices or measures
    it. *)

Definition is_continuation (a : ascii) : bool :=
  let n := Z.of_N (N_of_ascii a) in Z.eqb (Z.land n 192) 128.

Fixpoint utf8_chars_aux (s : string) : string * list string :=
  match s with
  | EmptyString => (EmptyString, [])
  | String a rest =>
      let '(pend, cs) := utf8_chars_aux rest in
      if is_continuation a then (String a pend, cs)
      else (EmptyString, String a pend :: cs)
  end.

Definition utf8_chars (s : string) : list string :=
  let '(pend, cs) := utf8_chars_aux s in
  match pend with EmptyString => cs | _ => pend :: cs end.

Fixpoint concat_strings (l : list string) : string :=
  match l with
  | [] => ""
  | s :: l' => s +:+ concat_strings l'
  end.

(** [sep.join(l)] on a list of strings. *)
Fixpoint join (sep : string) (l : list string) : string :=
  match l with
  | [] => ""
  | [s] => s
  | s :: l' => s +:+ sep +:+ join sep l'
  end.

Definition bytes_of (s : string) : list Z :=
  (fun a => Z.of_N (N_of_ascii a)) <$> String.list_ascii_of_string s.

(** [str.isspace] on one code point: U+0009..U+000D, U+001C..U+0020, U+0085,
    U+00A0, U+1680, U+2000..U+200A, U+2028, U+2029, U+202F, U+205F, U+3000. *)
Definition is_space (c : string) : bool :=
  match bytes_of c with
  | [b] => (((9 <=? b) && (b <=? 13)) || ((28 <=? b) && (b <=? 32)))%Z
  | [194; b] => ((b =? 133) || (b =? 160))%Z
  | [225; 154; 128] => true
  | [226; 128; b] =>
      (((128 <=? b) && (b <=? 138)) || (b =? 168) || (b =? 169) || (b =? 175))%Z
  | [226; 129; 159] => true
  | [227; 128; 128] => true
  | _ => false
  end.

Fixpoint drop_while {A} (p : A -> bool) (l : list A) : list A :=
  match l with
  | [] => []
  | x :: l' => if p x then drop_while p l' else l
  end.

(** [s.strip()] *)
Definition strip (s : string) : string :=
  concat_strings
    (rev (drop_while is_space (rev (drop_while is_space (utf8_chars s))))).

(** *** Built-in operations *)

Definition type_name (v : pyval) : string :=
  match v with
  | PNone => "NoneType"
  | PBool _ => "bool"
  | PInt _ => "int"
  | PFloat _ => "float"
  | PStr _ => "str"
  | PList _ => "list"
  | PDict _ => "dict"
  end.

(** Truth value: [bool(v)]. *)
Definition truthy (v : pyval) : bool :=
  match v with
  | PNone => false
  | PBool b => b
  | PInt z => negb (z =? 0)%Z
  | PFloat f => negb (PrimFloat.eqb f 0%float)
  | PStr s => negb (String.eqb s "")
  | PList l => match l with [] => false | _ => true end
  | PDict d => match d with [] => false | _ => true end
  end.

Fixpoint assoc (k : string) (d : dict) : option pyval :=
  match d with
  | [] => None
  | (k', v) :: d' => if String.eqb k' k then Some v else assoc k d'
  end.

(** [d.get(k, default)] on a dict. *)
Definition dict_get (d : dict) (k : string) (default : pyval) : pyval :=
  match assoc k d with Some v => v | None => default end.

(** [v.get(k, default)] on any value: only a dict has [get]. *)
Definition py_get (v : pyval) (k : string) (default : pyval) : outcome pyval :=
  match v with
  | PDict d => Ret (dict_get d k default)
  | _ => Raise (PyError "AttributeError"
                  ("'" +:+ type_name v +:+ "' object has no attribute 'get'"))
  end.

(** [v == s] for a string literal [s]. *)
Definition eq_str (v : pyval) (s : string) : bool :=
  match v with PStr s' => String.eqb s' s | _ => false end.

(** [len(v)] *)
Definition py_len (v : pyval) : outcome Z :=
  match v with
  | PStr s => Ret (Z.of_nat (length (utf8_chars s)))
  | PList l => Ret (Z.of_nat (length l))
  | PDict d => Ret (Z.of_nat (length d))
  | _ => Raise (PyError "TypeError"
                  ("object of type '" +:+ type_name v +:+ "' has no len()"))
  end.

(** The items [sep.join(v)] iterates over: every item must be a [str]. *)
Fixpoint all_strs (i : nat) (l : list pyval) : outcome (list string) :=
  match l with
  | [] => Ret []
  | PStr s :: l' => r ← all_strs (S i) l'; Ret (s :: r)
  | v :: _ => Raise (PyError "TypeError"
                ("sequence item " +:+ pretty i +:+ ": expected str instance, "
                 +:+ type_name v +:+ " found"))
  end.

(** [sep.join(v)] *)
Definition py_join (sep : string) (v : pyval) : outcome string :=
  match v with
  | PStr s => Ret (join sep (utf8_chars s))
  | PList l => r ← all_strs 0 l; Ret (join sep r)
  | PDict d => Ret (join sep (fst <$> d))
  | _ => Raise (PyError "TypeError" "can only join an iterable")
  end.

(** [v[:n]] *)
Definition py_slice_to (n : nat) (v : pyval) : outcome pyval :=
  match v with
  | PStr s => Ret (PStr (concat_strings (take n (utf8_chars s))))
  | PList l => Ret (PList (take n l))
  | PDict _ => Raise (PyError "TypeError" "unhashable type: 'slice'")
  | _ => Raise (PyError "TypeError"
                  ("'" +:+ type_name v +:+ "' object is not subscriptable"))
  end.

(** Whether a value can be a dict key. *)
Definition hashable (v : pyval) : bool :=
  match v with PList _ | PDict _ => false | _ => true end.

(** [str(v)], as an f-string renders [{v}].  [repr] is Python's rendering of
    floats, lists and dicts, which no code here computes with. *)
Definition py_str (repr : pyval -> string) (v : pyval) : string :=
  match v with
  | PNone => "None"
  | PBool true => "True"
  | PBool false => "False"
  | PInt z => pretty z
  | PStr s => s
  | _ => repr v
  end.

(** [Optional[str]] as a value. *)
Definition of_opt_str (o : option string) : pyval :=
  match o with Some s => PStr s | None => PNone end.

(** Code that also acts on the world [W]. *)
Definition io (W A : Type) : Type := W -> outcome A * W.

End Py.
Import Py.

(** ** Pydantic models

    What [Model] applied to keyword arguments checks for the field types the
    sources declare: a required field must be present, a [str] must be a
    string, a [list[str]] a list of strings; unknown keys are ignored.  The
    message of a [ValidationError] is shortened to the model and the field.
    The models validate in lax mode (the sources set no [strict]): a
    [float] field also takes an integer, a bool and a numeric text, a
    [bool] field also takes 0 and 1 and the texts of [str_as_bool]; a [str]
    field takes a string only. *)

Module Pydantic.

Definition ValidationError (model field problem : string) : pyexn :=
  PyError "ValidationError"
    ("1 validation error for " +:+ model +:+ ": " +:+ field +:+ ": " +:+ problem).

(** [Model] applied to the unpacked [v]: [v] must be a mapping. *)
Definition kwargs (model : string) (v : pyval) : outcome dict :=
  match v with
  | PDict d => Ret d
  | _ => Raise (PyError "TypeError"
           (model +:+ "() argument after ** must be a mapping, not "
            +:+ type_name v))
  end.

Definition required (model : string) (d : dict) (k : string) : outcome pyval :=
  match assoc k d with
  | Some v => Ret v
  | None => Raise (ValidationError model k "Field required")
  end.

Definition str_field (model k : string) (v : pyval) : outcome string :=
  match v with
  | PStr s => Ret s
  | _ => Raise (ValidationError model k "Input should be a valid string")
  end.

Definition opt_str_field (model k : string) (v : pyval) : outcome (option string) :=
  match v with
  | PNone => Ret None
  | PStr s => Ret (Some s)
  | _ => Raise (ValidationError model k "Input should be a valid string")
  end.

Fixpoint list_str_items (model k : string) (l : list pyval) : outcome (list string) :=
  match l with
  | [] => Ret []
  | v :: l' =>
      s ← str_field model k v; r ← list_str_items model k l'; Ret (s :: r)
  end.

Definition list_str_field (model k : string) (v : pyval) : outcome (list string) :=
  match v with
  | PList l => list_str_items model k l
  | _ => Raise (ValidationError model k "Input should be a valid list")
  end.

(** What the model takes from the installed [pydantic_core], whose code is
    not in the repository: how it reads a text as a float in lax mode
    ([str_as_float]), and whether the serializer of a response model writes
    an infinite or NaN float as null or leaves it in the body. *)
Class PydanticCore : Type := {
  str_as_float : string -> option float;
  inf_nan_as_null : bool
}.

(** A number read as a float.  [NInt z] stands for the float nearest to
    [z]. *)
Inductive number : Type := NInt (z : Z) | NFloat (f : float).

(** [float(z)] raises [OverflowError] from [2 ^ 1024 - 2 ^ 970] on, the
    first integer that rounds to [2 ^ 1024]. *)
Definition float_fits (z : Z) : bool := (Z.abs z <? 2 ^ 1024 - 2 ^ 970)%Z.

(** A [float] field in lax mode: a float is kept, a text is parsed, an
    integer is converted, a bool is 0.0 or 1.0. *)
Definition float_field {pydantic_core : PydanticCore} (model k : string) (v : pyval)
  : outcome number :=
  match v with
  | PFloat f => Ret (NFloat f)
  | PStr s =>
      match str_as_float s with
      | Some f => Ret (NFloat f)
      | None =>
          Raise (ValidationError model k
                   "Input should be a valid number, unable to parse string as a number")
      end
  | PInt z =>
      if float_fits z then Ret (NInt z)
      else Raise (ValidationError model k "Input should be a valid number")
  | PBool b => Ret (NInt (if b then 1 else 0))
  | _ => Raise (ValidationError model k "Input should be a valid number")
  end.

Definition opt_float_field {pydantic_core : PydanticCore} (model k : string) (v : pyval)
  : outcome (option number) :=
  match v with
  | PNone => Ret None
  | _ => f ← float_field model k v; Ret (Some f)
  end.

Definition lower_ascii (c : ascii) : ascii :=
  let n := nat_of_ascii c in
  if ((65 <=? n) && (n <=? 90))%nat then ascii_of_nat (n + 32) else c.

Fixpoint lower (s : string) : string :=
  match s with
  | EmptyString => EmptyString
  | String c s' => String (lower_ascii c) (lower s')
  end.

(** The texts a [bool] field takes in lax mode, whatever the case. *)
Definition str_as_bool (s : string) : option bool :=
  let l := lower s in
  if bool_decide (l ∈ ["0"; "off"; "f"; "false"; "n"; "no"]) then Some false
  else if bool_decide (l ∈ ["1"; "on"; "t"; "true"; "y"; "yes"]) then Some true
  else None.

(** A finite float without a fractional part. *)
Definition float_is_integer (f : float) : bool :=
  match Prim2SF f with
  | S754_zero _ => true
  | S754_finite _ m e => ((0 <=? e) || (Z.pos m mod 2 ^ (- e) =? 0))%Z
  | _ => false
  end.

(** A [bool] field in lax mode: a bool is kept; a text is read by
    [str_as_bool]; of the integers, and of the floats, 0 is [False] and 1 is
    [True]. *)
Definition bool_field (model k : string) (v : pyval) : outcome bool :=
  let unable :=
    Raise (ValidationError model k
             "Input should be a valid boolean, unable to interpret input") in
  match v with
  | PBool b => Ret b
  | PStr s => match str_as_bool s with Some b => Ret b | None => unable end
  | PInt z => if (z =? 0)%Z then Ret false else if (z =? 1)%Z then Ret true else unable
  | PFloat f =>
      if PrimFloat.eqb f 0 then Ret false
      else if PrimFloat.eqb f 1 then Ret true
      else if float_is_integer f then unable
      else Raise (ValidationError model k "Input should be a valid boolean")
  | _ => Raise (ValidationError model k "Input should be a valid boolean")
  end.

Definition opt_list_field (model k : string) (v : pyval) : outcome (option (list pyval)) :=
  match v with
  | PNone => Ret None
  | PList l => Ret (Some l)
  | _ => Raise (ValidationError model k "Input should be a valid list")
  end.

End Pydantic.

(** ** [aiagent/api/main.py] *)

Module Api.
Import Pydantic.

(** *** Request/Response Models *)

Record ChatRequest : Type := {
  message : string;
  conversation_id : option string;
  user_id : option string;
  include_history : bool;
  conversation_history : option (list pyval)
}.

Record SymptomFrame : Type := {
  chief_complaint : option string;
  duration : option string;
  severity_self : option string;
  age_band : option string;
  associated_symptoms : list string
}.

Record TriageResult : Type := {
  severity_level : string;
  rationale : string;
  recommended_action : string;
  red_flags_triggered : list string;
  care_instructions : list string;
  confidence : option number
}.

Record ActionPlan : Type := {
  type : string;
  specialization : option string;
  urgency : string;
  instructions : list string;
  resources : list string
}.

Record SummaryResult : Type := {
  patient_summary : string;
  clinician_summary : string
}.

Record ChatResponse : Type := {
  case_id : string;
  symptoms : SymptomFrame;
  triage : TriageResult;
  action : ActionPlan;
  summary : SummaryResult;
  response_message : string;
  status : string
}.

(** The request body of the chat endpoints: [message] is required
    ([Field(...)]) and a [str]; no constraint on its content is declared. *)
Definition ChatRequest_validate (body : pyval) : outcome ChatRequest :=
  match body with
  | PDict d =>
      m ← required "ChatRequest" d "message";
      m ← str_field "ChatRequest" "message" m;
      cid ← opt_str_field "ChatRequest" "conversation_id"
              (dict_get d "conversation_id" PNone);
      uid ← opt_str_field "ChatRequest" "user_id" (dict_get d "user_id" PNone);
      ih ← bool_field "ChatRequest" "include_history"
             (dict_get d "include_history" (PBool true));
      ch ← opt_list_field "ChatRequest" "conversation_history"
             (dict_get d "conversation_history" PNone);
      Ret {| message := m; conversation_id := cid; user_id := uid;
             include_history := ih; conversation_history := ch |}
  | _ => Raise (ValidationError "ChatRequest" "body"
                  "Input should be a valid dictionary")
  end.

Definition SymptomFrame_init (v : pyval) : outcome SymptomFrame :=
  d ← kwargs "SymptomFrame" v;
  cc ← opt_str_field "SymptomFrame" "chief_complaint" (dict_get d "chief_complaint" PNone);
  du ← opt_str_field "SymptomFrame" "duration" (dict_get d "duration" PNone);
  ss ← opt_str_field "SymptomFrame" "severity_self" (dict_get d "severity_self" PNone);
  ab ← opt_str_field "SymptomFrame" "age_band" (dict_get d "age_band" PNone);
  sy ← list_str_field "SymptomFrame" "associated_symptoms"
         (dict_get d "associated_symptoms" (PList []));
  Ret {| chief_complaint := cc; duration := du; severity_self := ss;
         age_band := ab; associated_symptoms := sy |}.

Definition TriageResult_init {pydantic_core : PydanticCore} (v : pyval) : outcome TriageResult :=
  d ← kwargs "TriageResult" v;
  sl ← required "TriageResult" d "severity_level";
  sl ← str_field "TriageResult" "severity_level" sl;
  ra ← required "TriageResult" d "rationale";
  ra ← str_field "TriageResult" "rationale" ra;
  rc ← required "TriageResult" d "recommended_action";
  rc ← str_field "TriageResult" "recommended_action" rc;
  rf ← required "TriageResult" d "red_flags_triggered";
  rf ← list_str_field "TriageResult" "red_flags_triggered" rf;
  ci ← required "TriageResult" d "care_instructions";
  ci ← list_str_field "TriageResult" "care_instructions" ci;
  co ← opt_float_field "TriageResult" "confidence" (dict_get d "confidence" PNone);
  Ret {| severity_level := sl; rationale := ra; recommended_action := rc;
         red_flags_triggered := rf; care_instructions := ci; confidence := co |}.

Definition ActionPlan_init (v : pyval) : outcome ActionPlan :=
  d ← kwargs "ActionPlan" v;
  ty ← required "ActionPlan" d "type";
  ty ← str_field "ActionPlan" "type" ty;
  sp ← opt_str_field "ActionPlan" "specialization" (dict_get d "specialization" PNone);
  ur ← required "ActionPlan" d "urgency";
  ur ← str_field "ActionPlan" "urgency" ur;
  ins ← required "ActionPlan" d "instructions";
  ins ← list_str_field "ActionPlan" "instructions" ins;
  res ← list_str_field "ActionPlan" "resources" (dict_get d "resources" (PList []));
  Ret {| type := ty; specialization := sp; urgency := ur; instructions := ins;
         resources := res |}.

Definition SummaryResult_init (v : pyval) : outcome SummaryResult :=
  d ← kwargs "SummaryResult" v;
  ps ← required "SummaryResult" d "patient_summary";
  ps ← str_field "SummaryResult" "patient_summary" ps;
  cs ← required "SummaryResult" d "clinician_summary";
  cs ← str_field "SummaryResult" "clinician_summary" cs;
  Ret {| patient_summary := ps; clinician_summary := cs |}.

(** *** Helper Functions *)

Definition RED_MESSAGE : string :=
  "⚠️ Based on your symptoms, this requires immediate medical attention. "
  +:+ "Please call emergency services or go to the nearest emergency room right away. "
  +:+ "Your safety is our priority.".

Definition AMBER_MESSAGE : string :=
  "I recommend speaking with a healthcare provider soon about your symptoms. "
  +:+ "I can help you book an appointment with a doctor or nurse practitioner. "
  +:+ "In the meantime, here's what you can do...".

Definition GREEN_MESSAGE : string :=
  "Based on what you've told me, this appears manageable with self-care. "
  +:+ "I'll provide some recommendations, but please monitor your symptoms. "
  +:+ "If things worsen, don't hesitate to seek medical advice.".

(** Generate conversational response for user based on triage *)
Definition generate_user_message (triage action : pyval) : outcome string :=
  severity ← py_get triage "severity_level" (PStr "UNKNOWN");
  if eq_str severity "RED" then Ret RED_MESSAGE
  else if eq_str severity "AMBER" then Ret AMBER_MESSAGE
  else Ret GREEN_MESSAGE.

(** *** Endpoints *)

Definition DISCLAIMER : string :=
  "This is AI-generated advice and not a substitute for professional medical consultation.".

Definition severity_map : dict :=
  [ ("RED", PStr "emergency");
    ("AMBER", PStr "urgent");
    ("YELLOW", PStr "referral");
    ("GREEN", PStr "self_care") ].

(** [severity_map.get(key, default)]: the key is hashed first. *)
Definition map_get (m : dict) (key default : pyval) : outcome pyval :=
  match key with
  | PStr s => Ret (dict_get m s default)
  | PList _ | PDict _ =>
      Raise (PyError "TypeError" ("unhashable type: '" +:+ type_name key +:+ "'"))
  | _ => Ret default
  end.

(** The fallback response of [chat_triage]. *)
Definition chat_triage_fallback : dict :=
  [ ("severity", PStr "referral");
    ("confidence", PFloat 0.5);
    ("recommendation", PStr "I recommend speaking with a healthcare provider about your symptoms. Would you like me to help you book an appointment?");
    ("suggestedActions", PList [PStr "Monitor your symptoms"; PStr "Contact your healthcare provider"; PStr "Seek care if symptoms worsen"]);
    ("disclaimer", PStr DISCLAIMER);
    ("needsEscalation", PBool false);
    ("carePathway", PDict [("type", PStr "referral"); ("urgency", PStr "routine")]);
    ("actionPlan", PDict [("type", PStr "referral"); ("urgency", PStr "routine")]);
    ("needsMoreInfo", PBool true);
    ("possibleConditions", PList []) ].

(** [a or b] on two [Optional[str]]. *)
Definition or_else (a b : option string) : option string :=
  match a with
  | Some s => if String.eqb s "" then b else a
  | None => b
  end.

Section Endpoints.
Context {pydantic_core : PydanticCore} {W : Type}.

(** [care_app.invoke]: the compiled LangGraph workflow of
    [graph/care_flow.py], and [utils.json_store.load_case]. *)
Variable care_app_invoke : dict -> io W pyval.
Variable load_case : string -> io W pyval.

(** Main endpoint: Process user message through LangGraph workflow *)
Definition process_chat (request : ChatRequest) : io W ChatResponse := fun w =>
  let initial_state :=
    [ ("user_input", PStr (message request));
      ("case_id", of_opt_str (conversation_id request)) ] in
  let '(invoked, w') := care_app_invoke initial_state w in
  (try_except
     (result_state ← invoked;
      case_id ← py_get result_state "case_id" PNone;
      symptoms ← py_get result_state "symptoms" (PDict []);
      triage ← py_get result_state "triage" (PDict []);
      action ← py_get result_state "action" (PDict []);
      summary ← py_get result_state "summary" (PDict []);
      message ← generate_user_message triage action;
      symptoms ← SymptomFrame_init symptoms;
      triage ← TriageResult_init triage;
      action ← ActionPlan_init action;
      summary ← SummaryResult_init summary;
      case_id ← str_field "ChatResponse" "case_id" case_id;
      Ret {| case_id := case_id; symptoms := symptoms; triage := triage;
             action := action; summary := summary;
             response_message := message; status := "success" |})
     (fun e => Raise (HTTPException 500
                        ("AI processing failed: " +:+ exn_str e))),
   w').

(** Quick triage endpoint - returns only severity assessment *)
Definition quick_triage (request : ChatRequest) : io W dict := fun w =>
  let initial_state :=
    [ ("user_input", PStr (message request));
      ("case_id", of_opt_str (conversation_id request)) ] in
  let '(invoked, w') := care_app_invoke initial_state w in
  (try_except
     (result_state ← invoked;
      triage ← py_get result_state "triage" (PDict []);
      severity ← py_get triage "severity_level" PNone;
      rationale ← py_get triage "rationale" PNone;
      red_flags ← py_get triage "red_flags_triggered" (PList []);
      action ← py_get triage "recommended_action" PNone;
      Ret [ ("severity", severity); ("rationale", rationale);
            ("red_flags", red_flags); ("action", action) ])
     (fun e => Raise (HTTPException 500 ("Triage failed: " +:+ exn_str e))),
   w').

(** Conversational triage endpoint for NestJS backend.  The [except] branch
    also prints the error and its traceback, which is not kept here. *)
Definition chat_triage (request : ChatRequest) : io W dict := fun w =>
  let case_id := or_else (conversation_id request) (user_id request) in
  let initial_state :=
    [ ("user_input", PStr (message request));
      ("case_id", of_opt_str case_id) ] in
  let '(invoked, w') := care_app_invoke initial_state w in
  (try_except
     (result_state ← invoked;
      triage ← py_get result_state "triage" (PDict []);
      action ← py_get result_state "action" (PDict []);
      symptoms ← py_get result_state "symptoms" (PDict []);
      severity_level ← py_get triage "severity_level" (PStr "UNKNOWN");
      mapped_severity ← map_get severity_map severity_level (PStr "unknown");
      recommendation ← generate_user_message triage action;
      confidence ← py_get triage "confidence" (PFloat 0.8);
      suggested ← py_get triage "care_instructions" (PList []);
      associated ← py_get symptoms "associated_symptoms" (PList []);
      n ← py_len associated;
      possible ← py_get triage "red_flags_triggered" (PList []);
      Ret [ ("severity", mapped_severity);
            ("confidence", confidence);
            ("recommendation", PStr recommendation);
            ("suggestedActions", suggested);
            ("disclaimer", PStr DISCLAIMER);
            ("needsEscalation", PBool (eq_str severity_level "RED"));
            ("carePathway", action);
            ("actionPlan", action);
            ("needsMoreInfo", PBool (n <? 2)%Z);
            ("possibleConditions", possible) ])
     (fun _ => Ret chat_triage_fallback),
   w').

(** Retrieve case data from JSON store *)
Definition get_case (case_id : string) : io W pyval := fun w =>
  let '(loaded, w') := load_case case_id w in
  (try_except
     (case_data ← loaded;
      if negb (truthy case_data)
      then Raise (HTTPException 404 "Case not found")
      else Ret case_data)
     (fun e => Raise (HTTPException 500 (exn_str e))),
   w').

End Endpoints.

(** The state [process_chat] and [quick_triage] hand to the workflow, and
    the one [chat_triage] hands to it. *)
Definition chat_state (request : ChatRequest) : dict :=
  [ ("user_input", PStr (message request));
    ("case_id", of_opt_str (conversation_id request)) ].

Definition triage_state (request : ChatRequest) : dict :=
  [ ("user_input", PStr (message request));
    ("case_id", of_opt_str (or_else (conversation_id request) (user_id request))) ].

(** *** What the client receives

    FastAPI answers 200 with the returned body when the body can be written
    as JSON, the status and detail of a raised [HTTPException], 422 when the
    request body does not validate, and 500 for any other exception, one
    raised while the body is written included. *)
Inductive http (A : Type) : Type :=
  | Http200 (body : A)
  | HttpError (status_code : Z) (detail : string).
Arguments Http200 {A} body.
Arguments HttpError {A} status_code detail.

Definition is_finite (f : float) : bool :=
  negb (PrimFloat.is_nan f || PrimFloat.is_infinity f).

(** [JSONResponse.render] writes the body with [json.dumps] and
    [allow_nan=False], which raises [ValueError] on a float that is
    infinite or NaN, wherever it stands in the body. *)
Fixpoint json_compliant (v : pyval) : bool :=
  match v with
  | PFloat f => is_finite f
  | PList l => forallb json_compliant l
  | PDict d => forallb (fun '(_, v) => json_compliant v) d
  | _ => true
  end.

(** Whether a returned body can be written as JSON. *)
Class Rendering (A : Type) : Type := renders : A -> bool.

(** A body returned by a route without a response model. *)
#[global] Instance pyval_rendering : Rendering pyval := json_compliant.
#[global] Instance dict_rendering : Rendering dict :=
  fun d => json_compliant (PDict d).

(** [ChatResponse] is a response model: it is serialized by the model
    before it is rendered.  Its one float is [confidence]. *)
#[global] Instance ChatResponse_rendering {pydantic_core : PydanticCore} : Rendering ChatResponse :=
  fun response =>
    match confidence (triage response) with
    | Some (NFloat f) => is_finite f || inf_nan_as_null
    | _ => true
    end.

Definition respond {A} {rendering : Rendering A} (r : outcome A) : http A :=
  match r with
  | Ret a => if renders a then Http200 a
             else HttpError 500 "Internal Server Error"
  | Raise (HTTPException sc d) => HttpError sc d
  | Raise (PyError _ _) => HttpError 500 "Internal Server Error"
  end.

Definition http_status {A} (r : http A) : Z :=
  match r with Http200 _ => 200 | HttpError sc _ => sc end.

(** A POST route taking a [ChatRequest] body. *)
Definition post_route {W A} {rendering : Rendering A} (handler : ChatRequest -> io W A)
    (body : pyval)
  : W -> http A * W := fun w =>
  match ChatRequest_validate body with
  | Raise e => (HttpError 422 (exn_str e), w)
  | Ret request => let '(r, w') := handler request w in (respond r, w')
  end.

Definition get_route {W A} {rendering : Rendering A} (handler : string -> io W A)
    (path_param : string)
  : W -> http A * W := fun w =>
  let '(r, w') := handler path_param w in (respond r, w').

End Api.

(** ** [aiagent/chains/summary_chain.py] *)

Module SummaryChain.

Definition SYSTEM_PROMPT : string :=
  "You are a medical triage assistant. Rewrite this triage summary in a clear, empathetic, patient-friendly way (2-3 sentences).".

(** [result.content.strip()] *)
Definition content_strip (content : pyval) : outcome string :=
  match content with
  | PStr s => Ret (strip s)
  | _ => Raise (PyError "AttributeError"
           ("'" +:+ type_name content +:+ "' object has no attribute 'strip'"))
  end.

Section GenerateSummaries.
(** Python's rendering of floats, lists and dicts in an f-string. *)
Variable py_repr : pyval -> string.
(** Whether [langchain_community] and [langchain_core] could be imported. *)
Variable OLLAMA_AVAILABLE : bool.
(** [os.getenv] *)
Variable getenv : string -> option string.
(** The Text Generation Service: for a model name, a system prompt and a
    user text, [ChatOllama(model=..., temperature=0.7)] invoked on the
    formatted [ChatPromptTemplate]; it gives [result.content], or the
    exception that building the client, formatting the prompt or the call
    raised. *)
Variable chat_invoke : string -> string -> string -> outcome pyval.

Local Abbreviation str := (py_str py_repr).

(** Build patient summary (user-friendly) *)
Definition patient_template (triage_result action_plan : pyval) : outcome string :=
  severity ← py_get triage_result "severity_level" (PStr "UNKNOWN");
  action_type ← py_get action_plan "type" (PStr "review");
  instructions ← py_get action_plan "instructions" (PList []);
  let patient_text :=
    "Based on your symptoms, you've been triaged as " +:+ str severity +:+ ". " in
  let patient_text :=
    patient_text +:+ "Recommended action: " +:+ str action_type +:+ ". " in
  patient_text ←
    (if truthy instructions
     then first ← py_slice_to 3 instructions;
          joined ← py_join "; " first;
          Ret (patient_text +:+ "Instructions: " +:+ joined +:+ ". ")
     else Ret patient_text);
  Ret (patient_text +:+
       "This is not a medical diagnosis. Seek professional help if symptoms worsen.").

(** Build clinician summary (structured details) *)
Definition clinician_template (user_input : string)
    (symptoms triage_result : pyval) (severity : pyval) : outcome string :=
  chief ← py_get symptoms "chief_complaint" (PStr user_input);
  let clinician_text := "Chief complaint: " +:+ str chief +:+ ". " in
  duration ← py_get symptoms "duration" (PStr "unknown");
  let clinician_text := clinician_text +:+ "Duration: " +:+ str duration +:+ ". " in
  associated ← py_get symptoms "associated_symptoms" (PList []);
  joined ← py_join ", " associated;
  let clinician_text :=
    clinician_text +:+ "Associated symptoms: " +:+ joined +:+ ". " in
  let clinician_text :=
    clinician_text +:+ "Triage level: " +:+ str severity +:+ ". " in
  rationale ← py_get triage_result "rationale" (PStr "N/A");
  let clinician_text :=
    clinician_text +:+ "Rationale: " +:+ str rationale +:+ ". " in
  red_flags ← py_get triage_result "red_flags_triggered" (PList []);
  clinician_text ←
    (if truthy red_flags
     then joined ← py_join ", " red_flags;
          Ret (clinician_text +:+ "Red flags: " +:+ joined +:+ ". ")
     else Ret clinician_text);
  recommended ← py_get triage_result "recommended_action" (PStr "review");
  Ret (clinician_text +:+ "Recommended action: " +:+ str recommended +:+ ".").

(** The body of the [try]: one call of the service on the template. *)
Definition service_call (patient_text : string) : outcome string :=
  let model_name :=
    match getenv "OLLAMA_MODEL" with Some m => m | None => "biomistral" end in
  content ← chat_invoke model_name SYSTEM_PROMPT patient_text;
  content_strip content.

(** Optional LLM enhancement (make patient summary more natural) *)
Definition enhance (patient_text : string) : string :=
  if OLLAMA_AVAILABLE then
    match service_call patient_text with
    | Ret text => text
    | Raise _ => patient_text  (* Use fallback text *)
    end
  else patient_text.

Definition generate_summaries (user_input : string)
    (symptoms triage_result action_plan : pyval) : outcome dict :=
  patient_text ← patient_template triage_result action_plan;
  severity ← py_get triage_result "severity_level" (PStr "UNKNOWN");
  clinician_text ← clinician_template user_input symptoms triage_result severity;
  let patient_text := enhance patient_text in
  Ret [ ("patient_summary", PStr patient_text);
        ("clinician_summary", PStr clinician_text) ].

End GenerateSummaries.

(** The clinician summary as the templates alone give it. *)
Definition clinician_alone (py_repr : pyval -> string) (user_input : string)
    (symptoms triage_result action_plan : pyval) : outcome pyval :=
  _ ← patient_template py_repr triage_result action_plan;
  severity ← py_get triage_result "severity_level" (PStr "UNKNOWN");
  text ← clinician_template py_repr user_input symptoms triage_result severity;
  Ret (PStr text).

(** The [clinician_summary] and [patient_summary] of a result. *)
Definition clinician_of (r : outcome dict) : outcome pyval :=
  d ← r; Ret (dict_get d "clinician_summary" PNone).

Definition patient_of (r : outcome dict) : outcome pyval :=
  d ← r; Ret (dict_get d "patient_summary" PNone).

End SummaryChain.

(** ** [aiagent/medical_llama/main.py] *)

Module MedicalLlama.
Import Pydantic.

Record TriageResponse : Type := {
  severity : string;
  confidence : number;
  recommendation : string;
  suggested_actions : list string;
  disclaimer : string;
  needs_escalation : bool;
  care_pathway : option dict;
  action_plan : option dict
}.

Definition opt_dict_field (model k : string) (v : pyval) : outcome (option dict) :=
  match v with
  | PNone => Ret None
  | PDict d => Ret (Some d)
  | _ => Raise (ValidationError model k "Input should be a valid dictionary")
  end.

(** [a or b] *)
Definition py_or (a b : pyval) : pyval := if truthy a then a else b.

Definition DEFAULT_DISCLAIMER : string :=
  "This is not medical advice. Always consult a healthcare provider.".

(** [triage_patient], from the comment "Format response - handle
    conversational flow" on: the response built from the result of
    [workflow.run].  Inside [triage_patient] an exception raised here is
    answered with HTTP 500. *)
Definition format_response {pydantic_core : PydanticCore} (result : pyval) : outcome TriageResponse :=
  triage_result ← py_get result "triage_result" (PDict []);
  more ← py_get triage_result "needs_more_info" (PBool false);
  if truthy more then
    (* For conversational responses (needs_more_info), use appropriate defaults *)
    rec ← py_get triage_result "recommendation" (PStr "Please provide more details");
    rec ← str_field "TriageResponse" "recommendation" rec;
    sa ← py_get triage_result "suggested_actions" PNone;
    sa ← list_str_field "TriageResponse" "suggested_actions" (py_or sa (PList []));
    di ← py_get triage_result "disclaimer" (PStr DEFAULT_DISCLAIMER);
    di ← str_field "TriageResponse" "disclaimer" di;
    Ret {| severity := "unknown"; confidence := NFloat 1.0;
           recommendation := rec; suggested_actions := sa; disclaimer := di;
           needs_escalation := false; care_pathway := None; action_plan := None |}
  else
    (* For complete triage responses *)
    sev_default ← py_get triage_result "severity" (PStr "referral");
    sev ← py_get result "severity" sev_default;
    sev ← str_field "TriageResponse" "severity" sev;
    conf_default ← py_get triage_result "confidence" (PFloat 0.5);
    conf ← py_get result "confidence" conf_default;
    conf ← float_field "TriageResponse" "confidence" conf;
    rec ← py_get triage_result "recommendation"
            (PStr "Please consult a healthcare provider");
    rec ← str_field "TriageResponse" "recommendation" rec;
    sa ← py_get triage_result "suggested_actions" PNone;
    sa ← list_str_field "TriageResponse" "suggested_actions" (py_or sa (PList []));
    di ← py_get triage_result "disclaimer" (PStr DEFAULT_DISCLAIMER);
    di ← str_field "TriageResponse" "disclaimer" di;
    ne ← py_get result "needs_escalation" (PBool false);
    ne ← bool_field "TriageResponse" "needs_escalation" ne;
    cp ← py_get result "care_pathway" PNone;
    cp ← opt_dict_field "TriageResponse" "care_pathway" cp;
    ap ← py_get result "action_plan" PNone;
    ap ← opt_dict_field "TriageResponse" "action_plan" ap;
    Ret {| severity := sev; confidence := conf; recommendation := rec;
           suggested_actions := sa; disclaimer := di; needs_escalation := ne;
           care_pathway := cp; action_plan := ap |}.

End MedicalLlama.

(** ** The case store read by [get_case] *)

Module JsonStore.

(** Modelled from the spec: [utils/json_store.py] is not among the sources.
    The Case Store keeps one record per case id and records are retrieved by
    exact key match only; [load_case] gives the record stored under the id,
    and [None] when there is none. *)
Definition load_case (case_id : string) : io (gmap string dict) pyval :=
  fun store =>
    (Ret (match store !! case_id with Some c => PDict c | None => PNone end),
     store).

End JsonStore.

(** ** The conversational triage state machine

    [graph/care_flow.py], which builds the workflow behind [care_app], is not
    among the sources; this module follows sections 3 and 4 of the
    specification. *)

Module Spec.

Inductive Severity : Type := GREEN | AMBER | RED.
Inductive ActionType : Type := self_care | book_appointment | referral | emergency.
Inductive Urgency : Type := immediate | urgent | routine.
Inductive CaseStatus : Type := AWAITING_INPUT | COMPLETE.
Inductive FlowState : Type :=
  START | EXTRACTING | NEEDS_MORE_INFO | TRIAGING | PLANNING | SUMMARIZING | DONE.

Definition severity_name (s : Severity) : string :=
  match s with GREEN => "GREEN" | AMBER => "AMBER" | RED => "RED" end.

Definition Severity_eqb (a b : Severity) : bool :=
  match a, b with
  | GREEN, GREEN | AMBER, AMBER | RED, RED => true
  | _, _ => false
  end.

Definition FlowState_eqb (a b : FlowState) : bool :=
  match a, b with
  | START, START | EXTRACTING, EXTRACTING | NEEDS_MORE_INFO, NEEDS_MORE_INFO
  | TRIAGING, TRIAGING | PLANNING, PLANNING | SUMMARIZING, SUMMARIZING
  | DONE, DONE => true
  | _, _ => false
  end.

Record SymptomFrame : Type := {
  chief_complaint : option string;
  duration : option string;
  severity_self : option string;
  age_band : option string;
  associated_symptoms : gset string
}.

(** The result of the Triage Classifier as section 3 of the specification
    has it, with its three levels; the response model of the API, which
    holds the level as a string, is [Api.TriageResult]. *)
Record TriageResult : Type := {
  severity_level : Severity;
  rationale : string;
  recommended_action : ActionType;
  red_flags_triggered : list string
}.

Record ActionPlan : Type := {
  type : ActionType;
  urgency : Urgency;
  instructions : list string;
  resources : list string
}.

Record SummaryResult : Type := {
  patient_summary : string;
  clinician_summary : string
}.

Record Turn : Type := { user_message : string; system_response : string }.

Record Case : Type := {
  case_id : string;
  turns : list Turn;
  symptom_frame : SymptomFrame;
  status : CaseStatus;
  triage : option TriageResult;
  action : option ActionPlan;
  summary : option SummaryResult
}.

Definition empty_frame : SymptomFrame :=
  {| chief_complaint := None; duration := None; severity_self := None;
     age_band := None; associated_symptoms := ∅ |}.

Definition new_case (id : string) : Case :=
  {| case_id := id; turns := []; symptom_frame := empty_frame;
     status := AWAITING_INPUT; triage := None; action := None; summary := None |}.

(** Modelled from the spec: the field-level merge of section 4.1 (non-null
    incoming fields overwrite, [associated_symptoms] is unioned). *)
Definition merge_field (prior incoming : option string) : option string :=
  match incoming with Some x => Some x | None => prior end.

Definition merge (prior incoming : SymptomFrame) : SymptomFrame :=
  {| chief_complaint := merge_field (chief_complaint prior) (chief_complaint incoming);
     duration := merge_field (duration prior) (duration incoming);
     severity_self := merge_field (severity_self prior) (severity_self incoming);
     age_band := merge_field (age_band prior) (age_band incoming);
     associated_symptoms := associated_symptoms prior ∪ associated_symptoms incoming |}.

(** *** Triage Classifier *)

(** Modelled from the spec: a red-flag rule of section 4.3, with its
    identifier, its tier, and whether it matches a symptom frame and a raw
    message. *)
Record Rule : Type := {
  rule_id : string;
  tier : Severity;
  fires : SymptomFrame -> string -> bool
}.

(** Modelled from the spec: the identifiers of the rules of tier [t] that
    match, in evaluation order. *)
Definition triggered (rules : list Rule) (t : Severity)
    (frame : SymptomFrame) (message : string) : list string :=
  rule_id <$> List.filter (fun r => Severity_eqb (tier r) t && fires r frame message) rules.

Definition rationale_of (ids : list string) : string :=
  match ids with
  | [] => "no red flags identified"
  | _ => "matched rules: " +:+ join ", " ids
  end.

Definition action_of (s : Severity) : ActionType :=
  match s with RED => emergency | AMBER => referral | GREEN => self_care end.

Definition result_of (s : Severity) (ids : list string) : TriageResult :=
  {| severity_level := s; rationale := rationale_of ids;
     recommended_action := action_of s; red_flags_triggered := ids |}.

(** Modelled from the spec: [classify] of section 4.3.  RED rules are
    evaluated before AMBER rules before the GREEN default; the first tier
    with a triggered rule, scanning from RED downward, wins, and
    [red_flags_triggered] lists the rules that matched within that tier.
    (The [confidence] of the result is left out.) *)
Definition classify (rules : list Rule) (frame : SymptomFrame) (message : string)
  : TriageResult :=
  match triggered rules RED frame message with
  | (_ :: _) as ids => result_of RED ids
  | [] =>
      match triggered rules AMBER frame message with
      | (_ :: _) as ids => result_of AMBER ids
      | [] => result_of GREEN (triggered rules GREEN frame message)
      end
  end.

(** *** Action Planner *)

(** Modelled from the spec: the table of section 4.4. *)
Definition plan (t : TriageResult) : ActionPlan :=
  match severity_level t with
  | RED =>
      {| type := emergency; urgency := immediate;
         instructions := ["Call emergency services or go to the nearest emergency room now"];
         resources := [] |}
  | AMBER =>
      {| type := referral; urgency := urgent;
         instructions := ["Arrange to see a healthcare provider soon"];
         resources := [] |}
  | GREEN =>
      {| type := self_care; urgency := routine;
         instructions := ["Rest and monitor your symptoms"];
         resources := [] |}
  end.

(** *** Flow Orchestrator *)

(** Modelled from the spec: the conservative default of section 4.1 (AMBER,
    referral, generic safety instructions). *)
Definition fallback_triage : TriageResult :=
  {| severity_level := AMBER;
     rationale := "automatic assessment unavailable";
     recommended_action := referral;
     red_flags_triggered := [] |}.

Definition fallback_action : ActionPlan :=
  {| type := referral; urgency := urgent;
     instructions := ["Contact a healthcare provider";
                      "Seek urgent care if symptoms worsen"];
     resources := [] |}.

Definition CLARIFYING_PROMPT : string :=
  "Could you tell me more about your symptoms?".

Definition FALLBACK_MESSAGE : string :=
  "Please speak with a healthcare provider about your symptoms. This is not a medical diagnosis.".

Inductive TurnOutcome : Type := REJECTED | MORE_INFO | COMPLETED | FELL_BACK.

Record TurnResult : Type := {
  turn_outcome : TurnOutcome;
  turn_case_id : option string;
  turn_symptoms : option SymptomFrame;
  turn_triage : option TriageResult;
  turn_action : option ActionPlan;
  turn_summary : option SummaryResult;
  turn_message : string;
  visited : list FlowState
}.

(** Modelled from the spec: the state of one turn in flight, in the state
    machine of section 4.1. *)
Record Machine : Type := {
  state : FlowState;
  frame : SymptomFrame;
  m_triage : option TriageResult;
  m_action : option ActionPlan;
  m_summary : option SummaryResult;
  failed : bool
}.

Definition goto (s : FlowState) (m : Machine) : Machine :=
  {| state := s; frame := frame m; m_triage := m_triage m;
     m_action := m_action m; m_summary := m_summary m; failed := failed m |}.

Definition fail (m : Machine) : Machine :=
  {| state := state m; frame := frame m; m_triage := m_triage m;
     m_action := m_action m; m_summary := m_summary m; failed := true |}.

(** Modelled from the spec: the frame "lacks both a chief_complaint and any
    associated_symptoms", and "this is the case's first turn". *)
Definition lacks_information (f : SymptomFrame) : bool :=
  match chief_complaint f with
  | None => bool_decide (associated_symptoms f = ∅)
  | Some _ => false
  end.

Definition first_turn (c : Case) : bool :=
  match turns c with [] => true | _ => false end.

Definition halted (m : Machine) : bool :=
  failed m || FlowState_eqb (state m) NEEDS_MORE_INFO || FlowState_eqb (state m) DONE.

Section Orchestrator.
(** Modelled from the spec: the stages of section 4, each of which may fail
    ([None]); the extractor gets the message, the recent turns and the prior
    frame. *)
Variable extract : string -> list Turn -> SymptomFrame -> option SymptomFrame.
Variable classify_stage : SymptomFrame -> string -> option TriageResult.
Variable plan_stage : TriageResult -> option ActionPlan.
Variable summarize :
  string -> SymptomFrame -> TriageResult -> ActionPlan -> option SummaryResult.
(** The identifier given to a case created without one. *)
Variable fresh_id : gmap string Case -> string.
(** The recent-history window (default 5). *)
Variable history_window : nat.

Definition recent (c : Case) : list Turn :=
  drop (length (turns c) - history_window)%nat (turns c).

(** Modelled from the spec: the condition of the more-info decision of
    section 4.1, on the frame merged from the case and the extraction. *)
Definition asks_for_more (c : Case) (message : string) : Prop :=
  exists partial,
    extract message (recent c) (symptom_frame c) = Some partial
    /\ lacks_information (merge (symptom_frame c) partial) = true
    /\ first_turn c = true.

(** Modelled from the spec: one transition of
    [START -> EXTRACTING -> (NEEDS_MORE_INFO | TRIAGING) -> PLANNING
     -> SUMMARIZING -> DONE]; a stage that fails stops the turn. *)
Definition step (c : Case) (message : string) (m : Machine) : Machine :=
  match state m with
  | START => goto EXTRACTING m
  | EXTRACTING =>
      match extract message (recent c) (symptom_frame c) with
      | None => fail m
      | Some partial =>
          let merged := merge (symptom_frame c) partial in
          let m' := {| state := EXTRACTING; frame := merged;
                       m_triage := m_triage m; m_action := m_action m;
                       m_summary := m_summary m; failed := failed m |} in
          if lacks_information merged && first_turn c
          then goto NEEDS_MORE_INFO m'
          else goto TRIAGING m'
      end
  | TRIAGING =>
      match classify_stage (frame m) message with
      | None => fail m
      | Some t =>
          goto PLANNING
            {| state := state m; frame := frame m; m_triage := Some t;
               m_action := m_action m; m_summary := m_summary m;
               failed := failed m |}
      end
  | PLANNING =>
      match m_triage m with
      | None => fail m
      | Some t =>
          match plan_stage t with
          | None => fail m
          | Some a =>
              goto SUMMARIZING
                {| state := state m; frame := frame m; m_triage := m_triage m;
                   m_action := Some a; m_summary := m_summary m;
                   failed := failed m |}
          end
      end
  | SUMMARIZING =>
      match m_triage m, m_action m with
      | Some t, Some a =>
          match summarize message (frame m) t a with
          | None => fail m
          | Some s =>
              goto DONE
                {| state := state m; frame := frame m; m_triage := m_triage m;
                   m_action := m_action m; m_summary := Some s;
                   failed := failed m |}
          end
      | _, _ => fail m
      end
  | NEEDS_MORE_INFO | DONE => m
  end.

(** Modelled from the spec: a turn runs until it halts; the states entered
    are recorded in order. *)
Fixpoint run (fuel : nat) (c : Case) (message : string) (m : Machine)
  : list FlowState * Machine :=
  match fuel with
  | O => ([state m], m)
  | S fuel' =>
      if halted m then ([state m], m)
      else
        let m' := step c message m in
        if failed m' then ([state m], m')
        else let '(trace, m'') := run fuel' c message m' in
             (state m :: trace, m'')
  end.

Definition initial : Machine :=
  {| state := START; frame := empty_frame; m_triage := None;
     m_action := None; m_summary := None; failed := false |}.

(** Modelled from the spec: "loads or creates the Case". *)
Definition load_or_create (store : gmap string Case) (id : option string) : Case :=
  match id with
  | Some i => match store !! i with Some c => c | None => new_case i end
  | None => new_case (fresh_id store)
  end.

(** Modelled from the spec: [process_turn] of section 4.1, one turn run
    alone.  The turn is appended to the case when it is persisted. *)
Definition process_turn (store : gmap string Case) (id : option string)
    (message : string) : TurnResult * gmap string Case :=
  if String.eqb (strip message) "" then
    ({| turn_outcome := REJECTED; turn_case_id := id; turn_symptoms := None;
        turn_triage := None; turn_action := None; turn_summary := None;
        turn_message := "message must not be empty"; visited := [] |}, store)
  else
    let c := load_or_create store id in
    let '(trace, m) := run 6 c message initial in
    if failed m then
      ({| turn_outcome := FELL_BACK; turn_case_id := Some (case_id c);
          turn_symptoms := None; turn_triage := Some fallback_triage;
          turn_action := Some fallback_action; turn_summary := None;
          turn_message := FALLBACK_MESSAGE; visited := trace |}, store)
    else if FlowState_eqb (state m) NEEDS_MORE_INFO then
      ({| turn_outcome := MORE_INFO; turn_case_id := Some (case_id c);
          turn_symptoms := Some (frame m); turn_triage := None;
          turn_action := None; turn_summary := None;
          turn_message := CLARIFYING_PROMPT; visited := trace |},
       <[case_id c :=
           {| case_id := case_id c;
              turns := turns c ++ [{| user_message := message;
                                      system_response := CLARIFYING_PROMPT |}];
              symptom_frame := frame m; status := AWAITING_INPUT;
              triage := triage c; action := action c; summary := summary c |}]>
         store)
    else
      let reply :=
        match m_summary m with Some s => patient_summary s | None => "" end in
      ({| turn_outcome := COMPLETED; turn_case_id := Some (case_id c);
          turn_symptoms := Some (frame m); turn_triage := m_triage m;
          turn_action := m_action m; turn_summary := m_summary m;
          turn_message := reply; visited := trace |},
       <[case_id c :=
           {| case_id := case_id c;
              turns := turns c ++ [{| user_message := message;
                                      system_response := reply |}];
              symptom_frame := frame m; status := COMPLETE;
              triage := m_triage m; action := m_action m;
              summary := m_summary m |}]>
         store).

End Orchestrator.

End Spec.

(** ** Sample inputs *)

Module Samples.
Import Api.


(** A workflow that records the states it is invoked on and answers with a
    fixed GREEN assessment holding a chief complaint and one associated
    symptom. *)
Definition green_state : dict :=
  [ ("case_id", PStr "case-1");
    ("symptoms", PDict [ ("chief_complaint", PStr "headache");
                         ("associated_symptoms", PList [PStr "fever"]) ]);
    ("triage", PDict [ ("severity_level", PStr "GREEN");
                       ("rationale", PStr "no red flags identified");
                       ("recommended_action", PStr "self-care");
                       ("red_flags_triggered", PList []);
                       ("care_instructions", PList [PStr "rest"]) ]);
    ("action", PDict [ ("type", PStr "self-care");
                       ("urgency", PStr "routine");
                       ("instructions", PList [PStr "rest"]) ]);
    ("summary", PDict [ ("patient_summary", PStr "Rest.");
                        ("clinician_summary", PStr "Headache.") ]) ].



Definition recording_workflow : dict -> io (list dict) pyval :=
  fun initial_state log => (Ret (PDict green_state), (log ++ [initial_state])%list).

Definition request (m : string) : ChatRequest :=
  {| message := m; conversation_id := None; user_id := Some "test_user_123";
     include_history := true; conversation_history := None |}.


(** The body of [test_chat_empty_message]. *)
Definition empty_message_body : pyval :=
  PDict [ ("message", PStr ""); ("user_id", PStr "test_user_123") ].

(** Python's [repr] is not needed on strings and [None]. *)
Definition no_repr : pyval -> string := fun _ => "".

Definition no_env : string -> option string := fun _ => None.

Definition unreachable_service : string -> string -> string -> outcome pyval :=
  fun _ _ _ => Raise (PyError "ConnectionError" "connection refused").

Definition polite_service : string -> string -> string -> outcome pyval :=
  fun _ _ _ => Ret (PStr "  Please rest and drink water.  ").

Definition sample_symptoms : pyval :=
  PDict [ ("chief_complaint", PStr "chest pain");
          ("duration", PStr "2 days");
          ("associated_symptoms", PList [PStr "dizziness"; PStr "nausea"]) ].

Definition sample_triage : pyval :=
  PDict [ ("severity_level", PStr "RED");
          ("rationale", PStr "chest pain with dizziness");
          ("red_flags_triggered", PList [PStr "chest_pain"]);
          ("recommended_action", PStr "emergency") ].

Definition sample_action : pyval :=
  PDict [ ("type", PStr "emergency");
          ("instructions", PList [PStr "Call emergency services"; PStr "Do not drive";
                                  PStr "Stay calm"; PStr "Unlock the door"]) ].

(** Red-flag rules after the examples of section 4.3. *)
Definition mentions (phrase message : string) : bool :=
  match String.index 0 phrase message with Some _ => true | None => false end.

Definition sample_rules : list Spec.Rule :=
  [ {| Spec.rule_id := "chest_pain_breathing"; Spec.tier := Spec.RED;
       Spec.fires := fun _ m => mentions "chest pain" m && mentions "breathe" m |};
    {| Spec.rule_id := "persistent_cough"; Spec.tier := Spec.AMBER;
       Spec.fires := fun _ m => mentions "cough" m |};
    {| Spec.rule_id := "hematemesis"; Spec.tier := Spec.RED;
       Spec.fires := fun _ m => mentions "vomiting blood" m |};
    {| Spec.rule_id := "severe_pain"; Spec.tier := Spec.AMBER;
       Spec.fires := fun _ m => mentions "severe" m |};
    {| Spec.rule_id := "mild_complaint"; Spec.tier := Spec.GREEN;
       Spec.fires := fun _ m => mentions "mild" m |} ].

Definition red_message : string :=
  "I have severe chest pain and a cough, I can't breathe".

(** Stages for the orchestrator: an extractor that finds nothing, the
    classifier over [sample_rules], the planner, and a fixed summary. *)
Definition silent_extractor
  : string -> list Spec.Turn -> Spec.SymptomFrame -> option Spec.SymptomFrame :=
  fun _ _ _ => Some Spec.empty_frame.

Definition keyword_extractor
  : string -> list Spec.Turn -> Spec.SymptomFrame -> option Spec.SymptomFrame :=
  fun m _ _ =>
    Some {| Spec.chief_complaint := Some m; Spec.duration := None;
            Spec.severity_self := None; Spec.age_band := None;
            Spec.associated_symptoms := ∅ |}.

Definition sample_classifier : Spec.SymptomFrame -> string -> option Spec.TriageResult :=
  fun f m => Some (Spec.classify sample_rules f m).

Definition sample_planner : Spec.TriageResult -> option Spec.ActionPlan :=
  fun t => Some (Spec.plan t).

Definition sample_summarizer
  : string -> Spec.SymptomFrame -> Spec.TriageResult -> Spec.ActionPlan
    -> option Spec.SummaryResult :=
  fun _ _ _ _ =>
    Some {| Spec.patient_summary := "summary for the patient";
            Spec.clinician_summary := "summary for the clinician" |}.

Definition sample_fresh_id : gmap string Spec.Case -> string :=
  fun store => "case-" +:+ pretty (size store).

(** A [pydantic_core] that reads the text 0.5 as a float, and no other
    text, and that leaves infinite and NaN floats in the serialized body. *)
Definition core : Pydantic.PydanticCore :=
  {| Pydantic.str_as_float :=
       fun s => if String.eqb s "0.5" then Some 0.5%float else None;
     Pydantic.inf_nan_as_null := false |}.

End Samples.

(** ** [aiagent/api/main.py]: the status endpoints *)

Module ApiStatus.

(** The keys of every body [chat_triage] returns, in order. *)
Definition chat_triage_keys : list string :=
  [ "severity"; "confidence"; "recommendation"; "suggestedActions"; "disclaimer";
    "needsEscalation"; "carePathway"; "actionPlan"; "needsMoreInfo";
    "possibleConditions" ].

Section Status.
(** [os.getenv] *)
Variable getenv : string -> option string.
(** [import requests] followed by [requests.get(url, timeout=t)]: the
    [status_code] of the response, or the exception raised. *)
Variable requests_get : string -> Z -> outcome Z.

(** Health check endpoint *)
Definition root : dict :=
  [ ("status", PStr "healthy");
    ("version", PStr "1.0.0");
    ("model", PStr (match getenv "OLLAMA_MODEL" with
                    | Some m => m
                    | None => "medllama2"
                    end)) ].

(** Detailed health check *)
Definition health_check : dict :=
  let ollama_healthy :=
    match requests_get "http://localhost:11434/api/tags" 2 with
    | Ret status_code => (status_code =? 200)%Z
    | Raise _ => false
    end in
  [ ("status", PStr (if ollama_healthy then "healthy" else "degraded"));
    ("services",
     PDict [ ("api", PStr "healthy");
             ("ollama", PStr (if ollama_healthy then "healthy" else "unavailable"));
             ("langgraph", PStr "healthy") ]) ].

End Status.

End ApiStatus.

(** ** [aiagent/medical_llama/database.py] *)

Module Database.

(** A row of [patients], under its primary key [patient_id].  Every other
    column is nullable; [medical_history], [allergies],
    [current_medications] and [notification_preferences] hold JSON text,
    [created_at] and [updated_at] a time. *)
Record Patient : Type := {
  name : option string;
  age : option Z;
  medical_history : option string;
  allergies : option string;
  current_medications : option string;
  preferred_language : option string;
  notification_preferences : option string;
  created_at : option Z;
  updated_at : option Z
}.

(** A row of [interactions]. *)
Record Interaction : Type := {
  interaction_id : string;
  patient_id : option string;
  timestamp : option Z;
  user_message : option string;
  assistant_response : option string;
  severity : option string;
  confidence : option float;
  care_pathway : option string;
  action_taken : option string;
  escalated : option bool;
  escalation_reason : option string
}.

(** A row of [medical_events]. *)
Record MedicalEvent : Type := {
  event_id : string;
  event_patient_id : option string;
  event_timestamp : option Z;
  event_type : option string;
  description : option string;
  event_severity : option string;
  event_action_taken : option string;
  resolved : option bool
}.

(** The committed content of the database; [interactions] and
    [medical_events] are in insertion order. *)
Record Database : Type := {
  patients : gmap string Patient;
  interactions : list Interaction;
  medical_events : list MedicalEvent
}.

Definition set_patients (f : gmap string Patient -> gmap string Patient)
    (db : Database) : Database :=
  {| patients := f (patients db); interactions := interactions db;
     medical_events := medical_events db |}.

(** The integers an INTEGER column of SQLite holds: binding any other
    makes the statement raise [OverflowError], and nothing is committed. *)
Definition sqlite_int_ok (z : Z) : bool :=
  ((- 2 ^ 63 <=? z) && (z <? 2 ^ 63))%Z.

Definition OverflowError : pyexn :=
  PyError "OverflowError" "Python int too large to convert to SQLite INTEGER".

(** The order of [ORDER BY timestamp]: a null is below every time. *)
Definition time_le (a b : option Z) : Prop :=
  match a, b with
  | None, _ => True
  | Some _, None => False
  | Some x, Some y => (x <= y)%Z
  end.

#[export] Instance time_le_dec (a b : option Z) : Decision (time_le a b).
Proof. destruct a as [x|], b as [y|]; simpl; apply _. Defined.

(** [i] comes before [j] under [ORDER BY timestamp DESC]. *)
Definition newer_first (i j : Interaction) : Prop :=
  time_le (timestamp j) (timestamp i).

#[export] Instance newer_first_dec (i j : Interaction) : Decision (newer_first i j).
Proof. unfold newer_first. apply _. Defined.

Definition of_patient (pid : string) (i : Interaction) : bool :=
  match patient_id i with Some p => String.eqb p pid | None => false end.

(** [LIMIT n]: a negative [n] sets no bound. *)
Definition sql_limit {A} (n : Z) (l : list A) : list A :=
  if (n <? 0)%Z then l else take (Z.to_nat n) l.

(** [db.query(Interaction).filter(Interaction.patient_id == pid)
      .order_by(Interaction.timestamp.desc()).limit(n).all()].
    Rows with the same timestamp come in an order SQL leaves open; here it
    is the one the merge sort gives. *)
Definition recent_interactions (pid : string) (n : Z) (db : Database)
  : outcome (list Interaction) :=
  if sqlite_int_ok n
  then Ret (sql_limit n
              (merge_sort newer_first (List.filter (of_patient pid) (interactions db))))
  else Raise OverflowError.

End Database.

(** ** [aiagent/medical_llama/main.py]: patients and conversation history *)

Module Patients.
Import Pydantic.

Record PatientProfile : Type := {
  patient_id : string;
  name : string;
  age : Z;
  medical_history : option (list string);
  allergies : option (list string);
  current_medications : option (list string);
  notification_preferences : option dict
}.

Record ConversationHistory : Type := {
  history_patient_id : string;
  user : string;
  assistant : string;
  timestamp : Z;
  severity : option string
}.

(** [l or []] and [d or {}] *)
Definition or_empty {A} (l : option (list A)) : list A :=
  match l with Some l => l | None => [] end.

Definition str_list (l : list string) : pyval := PList (PStr <$> l).

Definition int_field (model k : string) (v : option Z) : outcome Z :=
  match v with
  | Some z => Ret z
  | None => Raise (ValidationError model k "Input should be a valid integer")
  end.

Definition column_str (model k : string) (v : option string) : outcome string :=
  match v with
  | Some s => Ret s
  | None => Raise (ValidationError model k "Input should be a valid string")
  end.

Definition column_time (model k : string) (v : option Z) : outcome Z :=
  match v with
  | Some t => Ret t
  | None => Raise (ValidationError model k "Input should be a valid datetime")
  end.

Definition opt_list_str_field (model k : string) (v : pyval)
  : outcome (option (list string)) :=
  match v with
  | PNone => Ret None
  | _ => l ← list_str_field model k v; Ret (Some l)
  end.

(** [PatientProfile(patient_id=.., name=.., age=.., ...)] on the columns of a
    row and the decoded JSON values. *)
Definition PatientProfile_init (pid : string) (name : option string)
    (age : option Z) (mh al cm np : pyval) : outcome PatientProfile :=
  nm ← column_str "PatientProfile" "name" name;
  ag ← int_field "PatientProfile" "age" age;
  mh ← opt_list_str_field "PatientProfile" "medical_history" mh;
  al ← opt_list_str_field "PatientProfile" "allergies" al;
  cm ← opt_list_str_field "PatientProfile" "current_medications" cm;
  np ← MedicalLlama.opt_dict_field "PatientProfile" "notification_preferences" np;
  Ret {| patient_id := pid; name := nm; age := ag; medical_history := mh;
         allergies := al; current_medications := cm;
         notification_preferences := np |}.

(** [ConversationHistory(...)] on the columns of an interaction. *)
Definition ConversationHistory_init (i : Database.Interaction)
  : outcome ConversationHistory :=
  pid ← column_str "ConversationHistory" "patient_id" (Database.patient_id i);
  us ← column_str "ConversationHistory" "user" (Database.user_message i);
  asst ← column_str "ConversationHistory" "assistant" (Database.assistant_response i);
  ts ← column_time "ConversationHistory" "timestamp" (Database.timestamp i);
  Ret {| history_patient_id := pid; user := us; assistant := asst;
         timestamp := ts; severity := Database.severity i |}.

Fixpoint each {A B} (f : A -> outcome B) (l : list A) : outcome (list B) :=
  match l with
  | [] => Ret []
  | x :: l' => y ← f x; r ← each f l'; Ret (y :: r)
  end.

Section Endpoints.
(** [json.dumps] and [json.loads] *)
Variable json_dumps : pyval -> string.
Variable json_loads : string -> outcome pyval.

(** [json.loads(column) if column else default] *)
Definition loads_or (column : option string) (default : pyval) : outcome pyval :=
  match column with
  | Some s => if String.eqb s "" then Ret default else json_loads s
  | None => Ret default
  end.

(** The columns a profile is stored as; [language] and [created] are the
    values the row keeps or gets by default, [now] the time [updated_at] is
    set to. *)
Definition row_of (profile : PatientProfile) (language : option string)
    (created : option Z) (now : Z) : Database.Patient :=
  {| Database.name := Some (name profile);
     Database.age := Some (age profile);
     Database.medical_history :=
       Some (json_dumps (str_list (or_empty (medical_history profile))));
     Database.allergies :=
       Some (json_dumps (str_list (or_empty (allergies profile))));
     Database.current_medications :=
       Some (json_dumps (str_list (or_empty (current_medications profile))));
     Database.preferred_language := language;
     Database.notification_preferences :=
       Some (json_dumps (PDict (or_empty (notification_preferences profile))));
     Database.created_at := created;
     Database.updated_at := Some now |}.

(** The profile the two writing endpoints return: "Return with parsed JSON". *)
Definition returned (pid : string) (profile : PatientProfile) : PatientProfile :=
  {| patient_id := pid; name := name profile; age := age profile;
     medical_history := Some (or_empty (medical_history profile));
     allergies := Some (or_empty (allergies profile));
     current_medications := Some (or_empty (current_medications profile));
     notification_preferences := Some (or_empty (notification_preferences profile)) |}.

(** Register a new patient.  The row is built without [created_at] and
    [updated_at]: on insertion each of the two columns gets the value of a
    call of its own to its default, [datetime.utcnow]; [created] and
    [updated] are the two readings of the clock. *)
Definition register_patient (profile : PatientProfile) (created updated : Z)
  : io Database.Database PatientProfile := fun db =>
  match Database.patients db !! patient_id profile with
  | Some _ => (Raise (HTTPException 400 "Patient already registered"), db)
  | None =>
      let patient := row_of profile (Some "en") (Some created) updated in
      if Database.sqlite_int_ok (age profile)
      then (Ret (returned (patient_id profile) profile),
            Database.set_patients (insert (patient_id profile) patient) db)
      else (Raise Database.OverflowError, db)
  end.

(** Get patient profile *)
Definition get_patient (patient_id : string)
  : io Database.Database PatientProfile := fun db =>
  match Database.patients db !! patient_id with
  | None => (Raise (HTTPException 404 "Patient not found"), db)
  | Some patient =>
      ((* Parse JSON fields *)
       mh ← loads_or (Database.medical_history patient) (PList []);
       al ← loads_or (Database.allergies patient) (PList []);
       cm ← loads_or (Database.current_medications patient) (PList []);
       np ← loads_or (Database.notification_preferences patient) (PDict []);
       PatientProfile_init patient_id (Database.name patient)
         (Database.age patient) mh al cm np,
       db)
  end.

(** Update patient profile *)
Definition update_patient (patient_id : string) (profile : PatientProfile) (now : Z)
  : io Database.Database PatientProfile := fun db =>
  match Database.patients db !! patient_id with
  | None => (Raise (HTTPException 404 "Patient not found"), db)
  | Some patient =>
      let patient' :=
        row_of profile (Database.preferred_language patient)
          (Database.created_at patient) now in
      if Database.sqlite_int_ok (age profile)
      then (Ret (returned patient_id profile),
            Database.set_patients (insert patient_id patient') db)
      else (Raise Database.OverflowError, db)
  end.

End Endpoints.

(** A value that [json.dumps] writes as a non-empty text which [json.loads]
    reads back. *)
Definition round_trips (json_dumps : pyval -> string)
    (json_loads : string -> outcome pyval) (v : pyval) : Prop :=
  json_dumps v <> "" /\ json_loads (json_dumps v) = Ret v.

(** The four values [row_of] stores as JSON text. *)
Definition stored_values (profile : PatientProfile) : list pyval :=
  [ str_list (or_empty (medical_history profile));
    str_list (or_empty (allergies profile));
    str_list (or_empty (current_medications profile));
    PDict (or_empty (notification_preferences profile)) ].

(** An interaction whose message, response and time are not null. *)
Definition has_history_columns (i : Database.Interaction) : Prop :=
  is_Some (Database.user_message i)
  /\ is_Some (Database.assistant_response i)
  /\ is_Some (Database.timestamp i).

(** The interactions of a patient, as stored. *)
Definition interactions_of (pid : string) (db : Database.Database)
  : list Database.Interaction :=
  List.filter (Database.of_patient pid) (Database.interactions db).

(** The entry of the history an interaction is returned as. *)
Definition entry_of (i : Database.Interaction) (h : ConversationHistory) : Prop :=
  ConversationHistory_init i = Ret h.

(** Get conversation history for a patient *)
Definition get_conversation_history (patient_id : string) (limit : Z)
  : io Database.Database (list ConversationHistory) := fun db =>
  match Database.patients db !! patient_id with
  | None => (Raise (HTTPException 404 "Patient not found"), db)
  | Some _ =>
      (interactions ← Database.recent_interactions patient_id limit db;
       each ConversationHistory_init (reverse interactions),
       db)
  end.

End Patients.

(** ** [aiagent/medical_llama/main.py]: [triage_patient] *)

Module Triage.

Record ChatMessage : Type := {
  patient_id : string;
  message : string;
  include_history : bool
}.

(** An interaction as an entry of the conversation history. *)
Definition history_entry (i : Database.Interaction) : pyval :=
  PDict [ ("user", of_opt_str (Database.user_message i));
          ("assistant", of_opt_str (Database.assistant_response i)) ].

(** "Get conversation history if requested": the last five interactions of
    the patient, oldest first. *)
Definition conversation_history (chat : ChatMessage) (db : Database.Database)
  : outcome (list pyval) :=
  if include_history chat then
    interactions ← Database.recent_interactions (patient_id chat) 5 db;
    Ret (history_entry <$> reverse interactions)
  else Ret [].

(** The two [except] clauses of [triage_patient]: an [HTTPException] is
    raised again, any other exception becomes a 500 with its text. *)
Definition reraise {A} (r : outcome A) : outcome A :=
  match r with
  | Ret a => Ret a
  | Raise (HTTPException sc d) => Raise (HTTPException sc d)
  | Raise e => Raise (HTTPException 500 ("Triage failed: " +:+ exn_str e))
  end.

Section TriagePatient.
Context {pydantic_core : Pydantic.PydanticCore}.
(** [workflow.run(patient_id=.., user_input=.., conversation_history=..)] *)
Variable workflow_run : string -> string -> list pyval -> outcome pyval.
(** What the inner function [store_interaction] leaves in the database for
    a request and a workflow result: it writes the interaction (and a
    medical event on escalation) and catches every exception of its own. *)
Variable store_interaction :
  ChatMessage -> pyval -> Database.Database -> Database.Database.

(** Run medical triage on patient input.  [background_tasks] tells whether
    a task queue was passed: the interaction is then queued to be stored
    after the response (the last component of the result), and stored at
    once otherwise.  The debugging output is not kept. *)
Definition triage_patient (chat : ChatMessage) (background_tasks : bool)
    (db : Database.Database)
  : outcome MedicalLlama.TriageResponse * Database.Database * bool :=
  let '(tried, db', queued) :=
    match Database.patients db !! patient_id chat with
    | None => (Raise (HTTPException 404 "Patient not found"), db, false)
    | Some _ =>
        match
          (history ← conversation_history chat db;
           workflow_run (patient_id chat) (message chat) history)
        with
        | Raise e => (Raise e, db, false)
        | Ret PNone =>
            (Raise (HTTPException 500 "Workflow returned no result"), db, false)
        | Ret result =>
            let db' := if background_tasks then db
                       else store_interaction chat result db in
            (MedicalLlama.format_response result, db', background_tasks)
        end
    end in
  (reraise tried, db', queued).

End TriagePatient.

End Triage.

(** ** More sample inputs *)

Module MoreSamples.

(** A workflow whose state holds a case id and an action, and nothing else. *)
Definition bare_state : dict :=
  [ ("case_id", PStr "case-7");
    ("action", PDict [("type", PStr "referral"); ("urgency", PStr "routine")]) ].

Definition bare_workflow : dict -> io unit pyval :=
  fun _ w => (Ret (PDict bare_state), w).

(** The answer of [process_chat] to [Samples.recording_workflow]. *)
Definition green_response : Api.ChatResponse :=
  {| Api.case_id := "case-1";
     Api.symptoms :=
       {| Api.chief_complaint := Some "headache"; Api.duration := None;
          Api.severity_self := None; Api.age_band := None;
          Api.associated_symptoms := ["fever"] |};
     Api.triage :=
       {| Api.severity_level := "GREEN";
          Api.rationale := "no red flags identified";
          Api.recommended_action := "self-care";
          Api.red_flags_triggered := [];
          Api.care_instructions := ["rest"];
          Api.confidence := None |};
     Api.action :=
       {| Api.type := "self-care"; Api.specialization := None;
          Api.urgency := "routine"; Api.instructions := ["rest"];
          Api.resources := [] |};
     Api.summary :=
       {| Api.patient_summary := "Rest."; Api.clinician_summary := "Headache." |};
     Api.response_message := Api.GREEN_MESSAGE;
     Api.status := "success" |}.

(** The body of [test_chat_missing_fields]. *)
Definition missing_message_body : pyval :=
  PDict [ ("user_id", PStr "test_user_123") ].

(** An action plan with five instructions, the fourth of which is not a
    string, and the same plan cut to three. *)
Definition long_action : dict :=
  [ ("type", PStr "emergency");
    ("instructions", PList [PStr "Call emergency services"; PStr "Do not drive";
                            PStr "Stay calm"; PInt 4; PStr "Unlock the door"]) ].

Definition short_action : dict :=
  [ ("type", PStr "emergency");
    ("instructions", PList [PStr "Call emergency services"; PStr "Do not drive";
                            PStr "Stay calm"]) ].


Definition null_symptoms : dict :=
  [ ("chief_complaint", PStr "chest pain"); ("associated_symptoms", PNone) ].

(** [json.dumps] and [json.loads] on the empty list and the empty dict. *)
Definition dumps_empty (v : pyval) : string :=
  match v with PDict _ => "{}" | _ => "[]" end.

Definition loads_empty (s : string) : outcome pyval :=
  if String.eqb s "{}" then Ret (PDict []) else Ret (PList []).

Definition ada : Patients.PatientProfile :=
  {| Patients.patient_id := "p1"; Patients.name := "Ada"; Patients.age := 36;
     Patients.medical_history := None; Patients.allergies := None;
     Patients.current_medications := None;
     Patients.notification_preferences := None |}.

(** A profile for [update_patient] whose body names another patient. *)
Definition ada_renamed : Patients.PatientProfile :=
  {| Patients.patient_id := "p2"; Patients.name := "Ada L."; Patients.age := 37;
     Patients.medical_history := None; Patients.allergies := None;
     Patients.current_medications := None;
     Patients.notification_preferences := None |}.

Definition interaction (id pid : string) (t : Z) (said : string)
  : Database.Interaction :=
  {| Database.interaction_id := id; Database.patient_id := Some pid;
     Database.timestamp := Some t; Database.user_message := Some said;
     Database.assistant_response := Some "{}"; Database.severity := None;
     Database.confidence := None; Database.care_pathway := None;
     Database.action_taken := None; Database.escalated := Some false;
     Database.escalation_reason := None |}.

Definition empty_db : Database.Database :=
  {| Database.patients := ∅; Database.interactions := [];
     Database.medical_events := [] |}.

(** Ada registered with the clock read at 100 and at 101, with three
    interactions of hers and one of another patient. *)
Definition clinic : Database.Database :=
  {| Database.patients :=
       {[ "p1" := Patients.row_of dumps_empty ada (Some "en") (Some 100) 101 ]};
     Database.interactions :=
       [ interaction "i1" "p1" 130 "third";
         interaction "i2" "p1" 110 "first";
         interaction "i3" "p9" 115 "someone else";
         interaction "i4" "p1" 120 "second" ];
     Database.medical_events := [] |}.

Definition chat : Triage.ChatMessage :=
  {| Triage.patient_id := "p1"; Triage.message := "I have a headache";
     Triage.include_history := true |}.

Definition stranger : Triage.ChatMessage :=
  {| Triage.patient_id := "p5"; Triage.message := "I have a headache";
     Triage.include_history := true |}.

(** A workflow that asks a question back although it flags an escalation. *)
Definition asking_result : dict :=
  [ ("triage_result",
     PDict [ ("needs_more_info", PBool true);
             ("recommendation", PStr "How long have you had it?") ]);
    ("severity", PStr "emergency");
    ("needs_escalation", PBool true) ].

Definition asking_workflow : string -> string -> list pyval -> outcome pyval :=
  fun _ _ _ => Ret (PDict asking_result).

Definition no_store
  : Triage.ChatMessage -> pyval -> Database.Database -> Database.Database :=
  fun _ _ db => db.

(** A serializer of [TriageResponse] that leaves every float in the body,
    for [json.dumps] to accept or refuse. *)
Definition strict_rendering : Api.Rendering MedicalLlama.TriageResponse :=
  fun response =>
    match MedicalLlama.confidence response with
    | Pydantic.NFloat f => Api.is_finite f
    | Pydantic.NInt _ => true
    end
    && Api.json_compliant
         (PDict (Patients.or_empty (MedicalLlama.care_pathway response)))
    && Api.json_compliant
         (PDict (Patients.or_empty (MedicalLlama.action_plan response))).

End MoreSamples.

(** * Properties *)

(** ** Python values *)

(** One step through a sequence of statements that may raise. *)
Ltac bind_case :=
  unfold mbind, outcome_bind;
  match goal with
  | |- context [obind _ ?m] =>
      lazymatch m with
      | Ret _ => fail
      | Raise _ => fail
      | _ => destruct m; cbn [obind try_except]
      end
  end.

(** The same, also through the conditionals between the statements. *)
Ltac bind_step :=
  cbn [obind try_except];
  match goal with
  | |- context [obind _ ?m] =>
      lazymatch m with
      | Ret _ => fail
      | Raise _ => fail
      | (if ?b then _ else _) => destruct b
      | _ => destruct m
      end
  end.

Section PyFacts.

Lemma eq_str_true (v : pyval) (s : string) : eq_str v s = true <-> v = PStr s.
Proof.
  destruct v; simpl; try (split; [discriminate | intros H; discriminate H]).
  rewrite String.eqb_eq. split; [intros -> | intros [= ->]]; reflexivity.
Qed.

Lemma eq_str_false (v : pyval) (s : string) : eq_str v s = false <-> v <> PStr s.
Proof.
  rewrite <- eq_str_true. destruct (eq_str v s); split; congruence.
Qed.

Lemma try_except_Ret {A} (a : A) (h : pyexn -> outcome A) :
  try_except (Ret a) h = Ret a.
Proof. reflexivity. Qed.

Lemma obind_Ret {A B} (a : A) (f : A -> outcome B) : (x ← Ret a; f x) = f a.
Proof. reflexivity. Qed.

Lemma obind_Raise {A B} (e : pyexn) (f : A -> outcome B) :
  (x ← (Raise e : outcome A); f x) = Raise e.
Proof. reflexivity. Qed.

Lemma py_get_dict (d : dict) (k : string) (default : pyval) :
  py_get (PDict d) k default = Ret (dict_get d k default).
Proof. reflexivity. Qed.

End PyFacts.

(** ** [generate_user_message] *)

Section UserMessage.
Import Api.

Lemma messages_distinct :
  RED_MESSAGE <> AMBER_MESSAGE /\ RED_MESSAGE <> GREEN_MESSAGE
  /\ AMBER_MESSAGE <> GREEN_MESSAGE.
Proof. repeat split; intros H; vm_compute in H; discriminate H. Qed.

(** C10: [generate_user_message] answers with the emergency-room message
    exactly when the triage dict's [severity_level] is ["RED"], with the
    appointment message exactly when it is ["AMBER"], and with the self-care
    message for every other value, a missing key (read as ["UNKNOWN"]) and
    ["YELLOW"] included. *)
Theorem generate_user_message_by_severity (triage : dict) (action : pyval) :
  let severity := dict_get triage "severity_level" (PStr "UNKNOWN") in
  (generate_user_message (PDict triage) action = Ret RED_MESSAGE
     <-> severity = PStr "RED")
  /\ (generate_user_message (PDict triage) action = Ret AMBER_MESSAGE
       <-> severity = PStr "AMBER")
  /\ (generate_user_message (PDict triage) action = Ret GREEN_MESSAGE
       <-> severity <> PStr "RED" /\ severity <> PStr "AMBER")
  /\ generate_user_message (PDict []) action = Ret GREEN_MESSAGE
  /\ generate_user_message (PDict [("severity_level", PStr "YELLOW")]) action
       = Ret GREEN_MESSAGE.
Proof.
  intros severity.
  destruct messages_distinct as (Hra & Hrg & Hag).
  unfold generate_user_message. rewrite py_get_dict, obind_Ret.
  fold severity.
  destruct (eq_str severity "RED") eqn:Hred;
    [ apply eq_str_true in Hred; rewrite Hred
    | apply eq_str_false in Hred;
      destruct (eq_str severity "AMBER") eqn:Hamber;
      [ apply eq_str_true in Hamber; rewrite Hamber
      | apply eq_str_false in Hamber ] ];
    repeat split; intros;
    first [ reflexivity | congruence
          | match goal with H : _ /\ _ |- _ => destruct H; congruence end ].
Qed.

End UserMessage.

(** ** The endpoints of [api/main.py] *)

Section ApiFacts.
Import Api.
Context {pydantic_core : Pydantic.PydanticCore}.
Context {W : Type}.
Variable care_app_invoke : dict -> io W pyval.




(** [process_chat] raises nothing but [HTTPException] with status 500. *)
Lemma process_chat_raises_500 request w e :
  fst (process_chat care_app_invoke request w) = Raise e ->
  exists detail, e = HTTPException 500 detail.
Proof.
  unfold process_chat. destruct (care_app_invoke _ w) as [r w']. simpl.
  match goal with |- try_except ?m _ = _ -> _ => destruct m as [b|e'] end;
    simpl; [discriminate | intros [= <-]; eauto].
Qed.

(** A [TriageResult] is built only from a dict that holds a string under
    [severity_level], and keeps that string. *)
Lemma TriageResult_init_severity (v : pyval) (t : TriageResult) :
  TriageResult_init v = Ret t ->
  exists d, v = PDict d /\ assoc "severity_level" d = Some (PStr (severity_level t)).
Proof.
  unfold TriageResult_init, Pydantic.kwargs, Pydantic.required.
  destruct v as [| | | | | |d]; try (now cbn).
  cbn [obind mbind outcome_bind].
  destruct (assoc "severity_level" d) as [sl|] eqn:Hsl; [ | now cbn ].
  cbn [obind mbind outcome_bind].
  destruct sl as [| | | |sl| |]; try (now cbn).
  cbn [Pydantic.str_field obind mbind outcome_bind].
  repeat bind_case; try (now cbn).
  all: cbn; intros [= <-]; exists d; split; [ reflexivity | exact Hsl ].
Qed.


(** The world after [process_chat] is the world the workflow left. *)
Lemma process_chat_world request w :
  snd (process_chat care_app_invoke request w)
  = snd (care_app_invoke (chat_state request) w).
Proof.
  unfold process_chat. fold (chat_state request).
  destruct (care_app_invoke _ w) as [r w']. reflexivity.
Qed.

End ApiFacts.

Section WorkflowFailure.
Import Api.
Context {pydantic_core : Pydantic.PydanticCore}.
Context {W : Type}.


End WorkflowFailure.

Section WorkflowFailureInstances.
#[local] Existing Instance Samples.core.



End WorkflowFailureInstances.

Section RequestValidation.
Import Api.
Context {pydantic_core : Pydantic.PydanticCore}.

(** A body with a string [message] validates, whatever the string holds. *)
Lemma ChatRequest_validate_message (m : string) :
  ChatRequest_validate (PDict [("message", PStr m)])
  = Ret {| message := m; conversation_id := None; user_id := None;
           include_history := true; conversation_history := None |}.
Proof. reflexivity. Qed.

(** A body without [message] is rejected with status 422. *)
Lemma missing_message_rejected {W} (care_app_invoke : dict -> io W pyval)
    (d : dict) (w : W) :
  assoc "message" d = None ->
  exists detail,
    post_route (process_chat care_app_invoke) (PDict d) w = (HttpError 422 detail, w).
Proof.
  intros H. unfold post_route, ChatRequest_validate, Pydantic.required.
  rewrite H. simpl. eauto.
Qed.

(** C7 on the code: the request model puts no constraint on the content of
    [message], so a request with any string, the empty one and blank ones
    included, passes validation and [process_chat] invokes the workflow on
    it: the world after the request is the world the workflow leaves, and
    the status is never 422.  On the body of [test_chat_empty_message] the
    recording workflow is invoked on the empty message and the answer is
    200. *)
Theorem empty_message_reaches_workflow :
  (forall (W : Type) (care_app_invoke : dict -> io W pyval) (m : string) (w : W),
      snd (post_route (process_chat care_app_invoke) (PDict [("message", PStr m)]) w)
      = snd (care_app_invoke [("user_input", PStr m); ("case_id", PNone)] w)
      /\ http_status
           (fst (post_route (process_chat care_app_invoke)
                   (PDict [("message", PStr m)]) w)) <> 422)
  /\ snd (post_route (process_chat Samples.recording_workflow)
            Samples.empty_message_body [])
     = [[("user_input", PStr ""); ("case_id", PNone)]]
  /\ http_status
       (fst (post_route (process_chat Samples.recording_workflow)
               Samples.empty_message_body [])) = 200.
Proof.
  split; [ | split; reflexivity ].
  intros W care m w. unfold post_route.
  rewrite ChatRequest_validate_message.
  pose proof (process_chat_world care
                {| message := m; conversation_id := None; user_id := None;
                   include_history := true; conversation_history := None |} w)
    as Hw.
  pose proof (process_chat_raises_500 care
                {| message := m; conversation_id := None; user_id := None;
                   include_history := true; conversation_history := None |} w)
    as Hr.
  destruct (process_chat care _ w) as [r w']. simpl in *.
  split; [ exact Hw | ].
  destruct r as [resp | e];
    [ unfold respond; destruct (renders resp); simpl; discriminate | simpl ].
  destruct (Hr e eq_refl) as [detail ->]. simpl. discriminate.
Qed.

End RequestValidation.

Section GetCase.
Import Api.

(** [get_case] raises nothing but [HTTPException] with status 500: the 404
    it raises inside the [try] is caught by [except Exception]. *)
Lemma get_case_raises_500 {W} (load_case : string -> io W pyval) case_id w e :
  fst (get_case load_case case_id w) = Raise e ->
  exists detail, e = HTTPException 500 detail.
Proof.
  unfold get_case. destruct (load_case case_id w) as [r w']. simpl.
  match goal with |- try_except ?m _ = _ -> _ => destruct m as [b|e'] end;
    simpl; [discriminate | intros [= <-]; eauto].
Qed.

Lemma get_case_never_404 {W} (load_case : string -> io W pyval) case_id w :
  http_status (fst (get_route (get_case load_case) case_id w)) <> 404.
Proof.
  unfold get_route.
  pose proof (get_case_raises_500 load_case case_id w) as Hr.
  destruct (get_case load_case case_id w) as [r w']. simpl in *.
  destruct r as [v | e];
    [ unfold respond; destruct (renders v); simpl; discriminate | simpl ].
  destruct (Hr e eq_refl) as [detail ->]. simpl. discriminate.
Qed.

(** Whatever falsy value [load_case] gives for an absent case, the answer
    is 500. *)
Lemma get_case_falsy_is_500 {W} (load_case : string -> io W pyval) case_id w v w' :
  load_case case_id w = (Ret v, w') -> truthy v = false ->
  get_route (get_case load_case) case_id w
  = (HttpError 500 (exn_str (HTTPException 404 "Case not found")), w').
Proof.
  intros Hl Hv. unfold get_route, get_case. rewrite Hl. simpl. rewrite Hv.
  reflexivity.
Qed.

(** C6 on the code: for a case id with no record in the store, the answer
    of GET /api/case/{case_id} has status 500 (its detail is the text of
    the 404 exception), not 404. *)
Theorem get_case_absent_is_500 (store : gmap string dict) (case_id : string) :
  store !! case_id = None ->
  get_route (get_case JsonStore.load_case) case_id store
  = (HttpError 500 (exn_str (HTTPException 404 "Case not found")), store)
  /\ http_status (fst (get_route (get_case JsonStore.load_case) case_id store)) = 500
  /\ http_status (fst (get_route (get_case JsonStore.load_case) case_id store)) <> 404.
Proof.
  intros H.
  assert (Hr : get_route (get_case JsonStore.load_case) case_id store
               = (HttpError 500 (exn_str (HTTPException 404 "Case not found")), store)).
  { apply get_case_falsy_is_500 with (v := PNone); [ | reflexivity ].
    unfold JsonStore.load_case. rewrite H. reflexivity. }
  rewrite Hr. repeat split. discriminate.
Qed.

(** For a case id with a (non-empty) record that can be written as JSON,
    the record is returned. *)
Lemma get_case_present (store : gmap string dict) (case_id : string) (c : dict) :
  store !! case_id = Some c -> c <> [] -> json_compliant (PDict c) = true ->
  get_route (get_case JsonStore.load_case) case_id store
  = (Http200 (PDict c), store).
Proof.
  intros H Hc Hj. unfold get_route, get_case, JsonStore.load_case. rewrite H.
  destruct c as [|kv c]; [ congruence | ].
  cbn [obind mbind outcome_bind try_except truthy negb respond].
  unfold renders, pyval_rendering. rewrite Hj. reflexivity.
Qed.

End GetCase.

(** An instance: the empty store. *)
Lemma get_case_absent_is_500_witness :
  Api.get_route (Api.get_case JsonStore.load_case) "no-such-case" ∅
  = (Api.HttpError 500 "404: Case not found", ∅).
Proof.
  destruct (get_case_absent_is_500 ∅ "no-such-case" (lookup_empty _)) as [H _].
  exact H.
Defined.

Section NeedsMoreInfo.
Import Api.
Context {W : Type}.
Variable care_app_invoke : dict -> io W pyval.

(** When the workflow returns, [chat_triage] reports [needsMoreInfo] as
    "fewer than two associated symptoms", next to the severity mapped from
    the workflow's triage. *)
Lemma chat_triage_needs_more_info (request : ChatRequest) (w w' : W)
    (result_state triage symptoms : dict) (associated : list pyval) :
  care_app_invoke
    [ ("user_input", PStr (message request));
      ("case_id", of_opt_str (or_else (conversation_id request) (user_id request))) ]
    w = (Ret (PDict result_state), w') ->
  dict_get result_state "triage" (PDict []) = PDict triage ->
  dict_get result_state "symptoms" (PDict []) = PDict symptoms ->
  dict_get symptoms "associated_symptoms" (PList []) = PList associated ->
  hashable (dict_get triage "severity_level" (PStr "UNKNOWN")) = true ->
  exists body,
    chat_triage care_app_invoke request w = (Ret body, w')
    /\ dict_get body "needsMoreInfo" PNone
       = PBool (Z.of_nat (length associated) <? 2)%Z
    /\ map_get severity_map (dict_get triage "severity_level" (PStr "UNKNOWN"))
         (PStr "unknown")
       = Ret (dict_get body "severity" PNone)
    /\ dict_get body "actionPlan" PNone = dict_get result_state "action" (PDict []).
Proof.
  intros Hrun Ht Hs Ha Hh. unfold chat_triage. rewrite Hrun.
  cbn [py_get obind mbind outcome_bind try_except].
  rewrite Ht, Hs. cbn [py_get obind mbind outcome_bind].
  unfold generate_user_message.
  cbn [py_get obind mbind outcome_bind]. rewrite Ha.
  destruct (dict_get triage "severity_level" (PStr "UNKNOWN")) as [| | | | |l|d] eqn:Hsev;
    try discriminate Hh;
    cbn [map_get py_len eq_str obind mbind outcome_bind try_except];
    try (eexists; split; [ reflexivity | repeat split ]).
  destruct (String.eqb s "RED"); [ | destruct (String.eqb s "AMBER") ];
    cbn [obind mbind outcome_bind try_except];
    (eexists; split; [ reflexivity | repeat split ]).
Qed.

End NeedsMoreInfo.

(** C8, as stated, fails on [chat_triage]: the workflow answers with a
    chief complaint and one associated symptom, so the frame lacks neither
    field, and the response still signals that more information is needed,
    next to a triage outcome. *)
Lemma needs_more_info_with_symptoms_present :
  exists body symptoms,
    fst (Api.chat_triage Samples.recording_workflow
           (Samples.request "I have a headache and a fever") []) = Ret body
    /\ dict_get Samples.green_state "symptoms" PNone = PDict symptoms
    /\ dict_get symptoms "chief_complaint" PNone = PStr "headache"
    /\ dict_get symptoms "associated_symptoms" PNone = PList [PStr "fever"]
    /\ dict_get body "needsMoreInfo" PNone = PBool true
    /\ dict_get body "severity" PNone = PStr "self_care".
Proof. do 2 eexists. repeat split. Qed.

(** ** [generate_summaries] *)

Section Summaries.
Import SummaryChain.
Variable py_repr : pyval -> string.

Lemma clinician_of_generate_summaries avail getenv chat_invoke
    user_input symptoms triage_result action_plan :
  clinician_of (generate_summaries py_repr avail getenv chat_invoke
                  user_input symptoms triage_result action_plan)
  = clinician_alone py_repr user_input symptoms triage_result action_plan.
Proof.
  unfold clinician_of, clinician_alone, generate_summaries.
  destruct (patient_template py_repr triage_result action_plan) as [pt|e];
    [ | reflexivity ].
  cbn [obind mbind outcome_bind].
  destruct (py_get triage_result "severity_level" (PStr "UNKNOWN")) as [sev|e];
    [ | reflexivity ].
  cbn [obind mbind outcome_bind].
  destruct (clinician_template py_repr user_input symptoms triage_result sev);
    reflexivity.
Qed.

(** C4: the clinician summary is a function of the user message, the
    symptom frame, the triage result and the action plan alone.  Two calls
    on the same inputs give the same clinician summary (or raise alike)
    whatever the Text Generation Service is and answers in each call,
    whether it is available, and whatever the environment holds; the text
    is the one [clinician_template], which has no access to the service,
    composes. *)
Theorem clinician_summary_deterministic
    (avail1 avail2 : bool) (getenv1 getenv2 : string -> option string)
    (chat1 chat2 : string -> string -> string -> outcome pyval)
    (user_input : string) (symptoms triage_result action_plan : pyval) :
  clinician_of (generate_summaries py_repr avail1 getenv1 chat1
                  user_input symptoms triage_result action_plan)
  = clinician_of (generate_summaries py_repr avail2 getenv2 chat2
                    user_input symptoms triage_result action_plan)
  /\ clinician_of (generate_summaries py_repr avail1 getenv1 chat1
                     user_input symptoms triage_result action_plan)
     = (_ ← patient_template py_repr triage_result action_plan;
        severity ← py_get triage_result "severity_level" (PStr "UNKNOWN");
        text ← clinician_template py_repr user_input symptoms triage_result severity;
        Ret (PStr text)).
Proof.
  split.
  - rewrite !clinician_of_generate_summaries. reflexivity.
  - apply clinician_of_generate_summaries.
Qed.

(** Without the service, or when the call raises, the text is unchanged. *)
Lemma enhance_fallback avail getenv chat_invoke (text : string) :
  avail = false \/ (exists e, service_call getenv chat_invoke text = Raise e) ->
  enhance avail getenv chat_invoke text = text.
Proof.
  unfold enhance. intros [-> | [e He]]; [ reflexivity | ].
  rewrite He. destruct avail; reflexivity.
Qed.

(** A response whose content is not a string makes the call raise. *)
Lemma service_call_malformed getenv chat_invoke (text : string) (content : pyval) :
  (forall model, chat_invoke model SYSTEM_PROMPT text = Ret content) ->
  (forall s, content <> PStr s) ->
  exists e, service_call getenv chat_invoke text = Raise e.
Proof.
  intros Hc Hs. unfold service_call. rewrite Hc. cbn [obind mbind outcome_bind].
  destruct content; try (eexists; reflexivity). destruct (Hs s eq_refl).
Qed.

(** Whether the operation returns does not depend on the service. *)
Lemma generate_summaries_returns avail getenv chat_invoke
    user_input symptoms triage_result action_plan :
  is_Ret (generate_summaries py_repr avail getenv chat_invoke
            user_input symptoms triage_result action_plan)
  = is_Ret (clinician_alone py_repr user_input symptoms triage_result action_plan).
Proof.
  unfold clinician_alone, generate_summaries.
  destruct (patient_template py_repr triage_result action_plan) as [pt|e];
    [ | reflexivity ].
  cbn [obind mbind outcome_bind].
  destruct (py_get triage_result "severity_level" (PStr "UNKNOWN")) as [sev|e];
    [ | reflexivity ].
  cbn [obind mbind outcome_bind].
  destruct (clinician_template py_repr user_input symptoms triage_result sev);
    reflexivity.
Qed.

(** C5: when the call of the Text Generation Service fails (the import was
    not available, or building the client, formatting the prompt, the call
    or reading the content raised), [generate_summaries] returns, and its
    [patient_summary] is the deterministic template, unchanged. *)
Theorem patient_summary_falls_back
    (avail : bool) (getenv : string -> option string)
    (chat_invoke : string -> string -> string -> outcome pyval)
    (user_input : string) (symptoms triage_result action_plan : pyval)
    (template clinician : string) :
  patient_template py_repr triage_result action_plan = Ret template ->
  (severity ← py_get triage_result "severity_level" (PStr "UNKNOWN");
   clinician_template py_repr user_input symptoms triage_result severity)
  = Ret clinician ->
  avail = false \/ (exists e, service_call getenv chat_invoke template = Raise e) ->
  generate_summaries py_repr avail getenv chat_invoke
    user_input symptoms triage_result action_plan
  = Ret [ ("patient_summary", PStr template);
          ("clinician_summary", PStr clinician) ].
Proof.
  intros Hp Hc Hfail. unfold generate_summaries. rewrite Hp.
  cbn [obind mbind outcome_bind].
  destruct (py_get triage_result "severity_level" (PStr "UNKNOWN")) as [sev|e];
    [ | discriminate Hc ].
  cbn [obind mbind outcome_bind] in Hc |- *. rewrite Hc.
  cbn [obind mbind outcome_bind].
  rewrite (enhance_fallback _ _ _ _ Hfail). reflexivity.
Qed.

End Summaries.

(** An instance: the service is imported but cannot be reached. *)
Lemma patient_summary_falls_back_witness :
  SummaryChain.generate_summaries Samples.no_repr true Samples.no_env
    Samples.unreachable_service "my chest hurts"
    Samples.sample_symptoms Samples.sample_triage Samples.sample_action
  = Ret [ ("patient_summary",
           PStr "Based on your symptoms, you've been triaged as RED. Recommended action: emergency. Instructions: Call emergency services; Do not drive; Stay calm. This is not a medical diagnosis. Seek professional help if symptoms worsen.");
          ("clinician_summary",
           PStr "Chief complaint: chest pain. Duration: 2 days. Associated symptoms: dizziness, nausea. Triage level: RED. Rationale: chest pain with dizziness. Red flags: chest_pain. Recommended action: emergency.") ].
Proof.
  apply (patient_summary_falls_back Samples.no_repr true Samples.no_env
           Samples.unreachable_service "my chest hurts"
           Samples.sample_symptoms Samples.sample_triage Samples.sample_action);
    [ reflexivity | reflexivity | right; eexists; reflexivity ].
Defined.

(** ** The triage classifier *)

Section Classifier.
Import Spec.

Lemma Severity_eqb_eq (a b : Severity) : Severity_eqb a b = true <-> a = b.
Proof. destruct a, b; simpl; split; congruence. Qed.

Lemma triggered_In (rules : list Rule) (t : Severity) frame message (r : Rule) :
  In r rules -> tier r = t -> fires r frame message = true ->
  In (rule_id r) (triggered rules t frame message).
Proof.
  intros Hin Ht Hf. unfold triggered.
  change (In (rule_id r)
            (List.map rule_id
               (List.filter
                  (fun r => Severity_eqb (tier r) t && fires r frame message) rules))).
  apply in_map, filter_In. split; [ exact Hin | ].
  apply andb_true_intro. split; [ apply Severity_eqb_eq, Ht | exact Hf ].
Qed.

Lemma triggered_tier (rules : list Rule) (t : Severity) frame message (i : string) :
  In i (triggered rules t frame message) ->
  exists r, In r rules /\ rule_id r = i /\ tier r = t /\ fires r frame message = true.
Proof.
  unfold triggered.
  change (In i (List.map rule_id
                  (List.filter
                     (fun r => Severity_eqb (tier r) t && fires r frame message) rules))
          -> exists r, In r rules /\ rule_id r = i /\ tier r = t
                       /\ fires r frame message = true).
  intros H. apply in_map_iff in H as (r & Hid & Hr).
  apply filter_In in Hr as (Hin & Hb). apply andb_prop in Hb as (Ht & Hf).
  exists r. repeat split; try assumption. apply Severity_eqb_eq, Ht.
Qed.

(** The result is that of the first tier, from RED downward, with a
    triggered rule. *)
Lemma classify_cases (rules : list Rule) frame message :
  let red := triggered rules RED frame message in
  let amber := triggered rules AMBER frame message in
  let green := triggered rules GREEN frame message in
  (red <> [] /\ classify rules frame message = result_of RED red)
  \/ (red = [] /\ amber <> [] /\ classify rules frame message = result_of AMBER amber)
  \/ (red = [] /\ amber = [] /\ classify rules frame message = result_of GREEN green).
Proof.
  intros red amber green. unfold classify. fold red amber green.
  destruct red as [|i l]; [ right | left; split; [ discriminate | reflexivity ] ].
  destruct amber as [|j k]; [ right | left ]; repeat split; discriminate.
Qed.

(** C2: if any RED-tier rule matches the message and the symptom frame,
    the result has severity RED and a non-empty list of triggered flags
    (the matching rule among them), whatever the other rules are and
    however many of them match. *)
Theorem red_rule_forces_red (rules : list Rule) (frame : SymptomFrame)
    (message : string) (r : Rule) :
  In r rules -> tier r = RED -> fires r frame message = true ->
  severity_level (classify rules frame message) = RED
  /\ red_flags_triggered (classify rules frame message) <> []
  /\ In (rule_id r) (red_flags_triggered (classify rules frame message)).
Proof.
  intros Hin Ht Hf.
  pose proof (triggered_In rules RED frame message r Hin Ht Hf) as Hr.
  destruct (classify_cases rules frame message)
    as [(Hne & ->) | [(He & _) | (He & _)]];
    [ | rewrite He in Hr; destruct Hr .. ].
  simpl. repeat split; assumption.
Qed.

(** Every flag of a RED result is a RED rule that matched. *)
Lemma red_flags_are_red_rules (rules : list Rule) frame message (i : string) :
  severity_level (classify rules frame message) = RED ->
  In i (red_flags_triggered (classify rules frame message)) ->
  exists r, In r rules /\ rule_id r = i /\ tier r = RED
            /\ fires r frame message = true.
Proof.
  destruct (classify_cases rules frame message)
    as [(_ & ->) | [(_ & _ & ->) | (_ & _ & ->)]]; simpl; try discriminate.
  intros _. apply triggered_tier.
Qed.

(** No rule matches: GREEN, no flags. *)
Lemma classify_default (rules : list Rule) frame message :
  (forall r, In r rules -> fires r frame message = false) ->
  classify rules frame message = result_of GREEN [].
Proof.
  intros Hno.
  assert (Hnil : forall t, triggered rules t frame message = []).
  { intros t. destruct (triggered rules t frame message) as [|i l] eqn:E;
      [ reflexivity | ].
    destruct (triggered_tier rules t frame message i) as (r & Hin & _ & _ & Hf);
      [ rewrite E; left; reflexivity | ].
    rewrite (Hno r Hin) in Hf. discriminate Hf. }
  unfold classify. rewrite !Hnil. reflexivity.
Qed.

End Classifier.

(** An instance: a message that matches a RED rule and two AMBER rules. *)
Lemma red_rule_forces_red_witness :
  Spec.severity_level
    (Spec.classify Samples.sample_rules Spec.empty_frame Samples.red_message) = Spec.RED
  /\ Spec.red_flags_triggered
       (Spec.classify Samples.sample_rules Spec.empty_frame Samples.red_message)
     = ["chest_pain_breathing"].
Proof.
  split; [ | reflexivity ].
  apply (red_rule_forces_red Samples.sample_rules Spec.empty_frame Samples.red_message
           {| Spec.rule_id := "chest_pain_breathing"; Spec.tier := Spec.RED;
              Spec.fires := fun _ m => Samples.mentions "chest pain" m
                                       && Samples.mentions "breathe" m |});
    [ left; reflexivity | reflexivity | reflexivity ].
Defined.

(** ** The flow orchestrator *)

Section OrchestratorFacts.
Import Spec.
Variable extract : string -> list Turn -> SymptomFrame -> option SymptomFrame.
Variable classify_stage : SymptomFrame -> string -> option TriageResult.
Variable plan_stage : TriageResult -> option ActionPlan.
Variable summarize :
  string -> SymptomFrame -> TriageResult -> ActionPlan -> option SummaryResult.
Variable fresh_id : gmap string Case -> string.
Variable history_window : nat.

Local Abbreviation run6 c message :=
  (run extract classify_stage plan_stage summarize history_window 6 c message initial).

Local Abbreviation turn store id message :=
  (process_turn extract classify_stage plan_stage summarize fresh_id history_window
     store id message).

Local Abbreviation asks_for_more c message :=
  (Spec.asks_for_more extract history_window c message).

Lemma asks_for_more_iff (c : Case) (message : string) :
  asks_for_more c message
  <-> match extract message (recent history_window c) (symptom_frame c) with
      | Some partial =>
          lacks_information (merge (symptom_frame c) partial) && first_turn c
      | None => false
      end = true.
Proof.
  unfold Spec.asks_for_more. split.
  - intros (p & -> & Hl & Hf). rewrite Hl, Hf. reflexivity.
  - destruct (extract message (recent history_window c) (symptom_frame c))
      as [p|]; [ | discriminate ].
    intros H. apply andb_prop in H as (Hl & Hf). exists p. repeat split; assumption.
Qed.

(** A turn halts within six transitions, in one of three ways. *)
Lemma run_outcomes (c : Case) (message : string) :
  (failed (snd (run6 c message)) = true /\ ~ asks_for_more c message)
  \/ (failed (snd (run6 c message)) = false
      /\ state (snd (run6 c message)) = NEEDS_MORE_INFO
      /\ m_triage (snd (run6 c message)) = None
      /\ fst (run6 c message) = [START; EXTRACTING; NEEDS_MORE_INFO]
      /\ asks_for_more c message)
  \/ (failed (snd (run6 c message)) = false
      /\ state (snd (run6 c message)) = DONE
      /\ fst (run6 c message)
         = [START; EXTRACTING; TRIAGING; PLANNING; SUMMARIZING; DONE]
      /\ ~ asks_for_more c message
      /\ exists t a s,
           m_triage (snd (run6 c message)) = Some t
           /\ m_action (snd (run6 c message)) = Some a
           /\ m_summary (snd (run6 c message)) = Some s
           /\ classify_stage (frame (snd (run6 c message))) message = Some t).
Proof.
  rewrite asks_for_more_iff.
  cbn [run initial halted failed state orb FlowState_eqb step goto].
  destruct (extract message (recent history_window c) (symptom_frame c))
    as [partial|]; cbn.
  2: { left. split; [ reflexivity | discriminate ]. }
  destruct (lacks_information (merge (symptom_frame c) partial) && first_turn c);
    cbn.
  { right; left. repeat split. }
  destruct (classify_stage (merge (symptom_frame c) partial) message)
    as [t|] eqn:Hc; cbn; [ | left; split; [ reflexivity | discriminate ] ].
  destruct (plan_stage t) as [a|]; cbn;
    [ | left; split; [ reflexivity | discriminate ] ].
  destruct (summarize message (merge (symptom_frame c) partial) t a) as [s|]; cbn;
    [ | left; split; [ reflexivity | discriminate ] ].
  right; right. repeat split; try discriminate.
  exists t, a, s. repeat split. exact Hc.
Qed.

(** A turn is rejected exactly when its message is blank, and then the
    store is left as it was. *)
Lemma blank_message_rejected (store : gmap string Case) (id : option string)
    (message : string) :
  strip message = "" ->
  turn store id message
  = ({| turn_outcome := REJECTED; turn_case_id := id; turn_symptoms := None;
        turn_triage := None; turn_action := None; turn_summary := None;
        turn_message := "message must not be empty"; visited := [] |}, store).
Proof. intros H. unfold process_turn. rewrite H. reflexivity. Qed.

(** The more-info decision of the orchestrator: on a first turn whose
    merged frame has neither a chief complaint nor an associated symptom,
    the turn goes to NEEDS_MORE_INFO and never enters TRIAGING, the
    response is the clarifying prompt with no triage result, and the case
    is stored as AWAITING_INPUT; in no other case is more information
    asked for. *)
Lemma more_info_decision (store : gmap string Case) (id : option string)
    (message : string) :
  strip message <> "" ->
  let c := load_or_create fresh_id store id in
  (asks_for_more c message ->
     turn_outcome (fst (turn store id message)) = MORE_INFO
     /\ turn_message (fst (turn store id message)) = CLARIFYING_PROMPT
     /\ turn_triage (fst (turn store id message)) = None
     /\ visited (fst (turn store id message)) = [START; EXTRACTING; NEEDS_MORE_INFO]
     /\ ~ In TRIAGING (visited (fst (turn store id message)))
     /\ exists c', snd (turn store id message) !! case_id c = Some c'
                   /\ status c' = AWAITING_INPUT)
  /\ (turn_outcome (fst (turn store id message)) = MORE_INFO ->
      asks_for_more c message).
Proof.
  intros Hne c. apply String.eqb_neq in Hne.
  unfold process_turn. rewrite Hne. fold c.
  pose proof (run_outcomes c message) as Hrun.
  destruct (run extract classify_stage plan_stage summarize history_window 6 c
              message initial) as [trace m].
  cbn [fst snd] in Hrun.
  destruct Hrun as [(Hf & Hno) | [(Hf & Hs & Ht & Htr & Hyes) | (Hf & Hs & _ & Hno & _)]];
    rewrite Hf; [ | rewrite Hs | rewrite Hs ]; cbn [FlowState_eqb fst snd turn_outcome
      turn_message turn_triage visited].
  - split; [ intros H; destruct (Hno H) | discriminate ].
  - split; [ intros _ | intros _; exact Hyes ].
    rewrite Htr. repeat split.
    + simpl. intros [H|[H|[H|H]]]; try discriminate H; exact H.
    + eexists. split; [ apply lookup_insert_eq | reflexivity ].
  - split; [ intros H; destruct (Hno H) | discriminate ].
Qed.

End OrchestratorFacts.

(** ** The response of [triage_patient] *)

Section TriagePatient.
Import MedicalLlama Pydantic.
Context {pydantic_core : Pydantic.PydanticCore}.

(** When the workflow's triage result asks for more information, the
    response has severity ["unknown"], no escalation, no care pathway and no
    action plan. *)
Lemma format_response_needs_more_info (result triage_result : dict)
    (rec di : string) (sa : list string) :
  dict_get result "triage_result" (PDict []) = PDict triage_result ->
  truthy (dict_get triage_result "needs_more_info" (PBool false)) = true ->
  dict_get triage_result "recommendation" (PStr "Please provide more details")
  = PStr rec ->
  list_str_field "TriageResponse" "suggested_actions"
    (py_or (dict_get triage_result "suggested_actions" PNone) (PList [])) = Ret sa ->
  dict_get triage_result "disclaimer" (PStr DEFAULT_DISCLAIMER) = PStr di ->
  format_response (PDict result)
  = Ret {| severity := "unknown"; confidence := NFloat 1.0;
           recommendation := rec; suggested_actions := sa; disclaimer := di;
           needs_escalation := false; care_pathway := None; action_plan := None |}.
Proof.
  intros Ht Hm Hr Hs Hd. unfold format_response.
  cbn [py_get obind mbind outcome_bind]. rewrite Ht.
  cbn [py_get obind mbind outcome_bind]. rewrite Hm, Hr.
  cbn [str_field obind mbind outcome_bind]. rewrite Hs.
  cbn [obind mbind outcome_bind]. rewrite Hd. reflexivity.
Qed.

End TriagePatient.

(** ** The more-info signal *)

(** C8, as the code has it.  In the orchestrator, on a turn with a
    non-blank message: if this is the case's first turn and the merged frame
    has neither a chief complaint nor an associated symptom, the turn goes to
    NEEDS_MORE_INFO without entering TRIAGING, the response is the
    clarifying prompt with no triage result, and the case is stored as
    AWAITING_INPUT; and the turn asks for more information under no other
    condition.  The [needsMoreInfo] flag of [chat_triage] is another signal:
    whenever the workflow returns, it is true exactly when fewer than two
    associated symptoms were extracted, and it comes with the severity mapped
    from the workflow's triage. *)
Theorem more_info_signal :
  (forall extract classify_stage plan_stage summarize fresh_id history_window
          (store : gmap string Spec.Case) (id : option string) (message : string),
      strip message <> "" ->
      let c := Spec.load_or_create fresh_id store id in
      let turn := Spec.process_turn extract classify_stage plan_stage summarize
                    fresh_id history_window store id message in
      (Spec.asks_for_more extract history_window c message ->
         Spec.turn_outcome (fst turn) = Spec.MORE_INFO
         /\ Spec.turn_message (fst turn) = Spec.CLARIFYING_PROMPT
         /\ Spec.turn_triage (fst turn) = None
         /\ ~ In Spec.TRIAGING (Spec.visited (fst turn))
         /\ exists c', snd turn !! Spec.case_id c = Some c'
                       /\ Spec.status c' = Spec.AWAITING_INPUT)
      /\ (Spec.turn_outcome (fst turn) = Spec.MORE_INFO ->
          Spec.asks_for_more extract history_window c message))
  /\ (forall (W : Type) (care_app_invoke : dict -> io W pyval)
             (request : Api.ChatRequest) (w w' : W)
             (result_state triage symptoms : dict) (associated : list pyval),
        care_app_invoke (Api.triage_state request) w = (Ret (PDict result_state), w') ->
        dict_get result_state "triage" (PDict []) = PDict triage ->
        dict_get result_state "symptoms" (PDict []) = PDict symptoms ->
        dict_get symptoms "associated_symptoms" (PList []) = PList associated ->
        hashable (dict_get triage "severity_level" (PStr "UNKNOWN")) = true ->
        exists body,
          Api.chat_triage care_app_invoke request w = (Ret body, w')
          /\ (dict_get body "needsMoreInfo" PNone = PBool true
              <-> (length associated < 2)%nat)
          /\ (dict_get body "needsMoreInfo" PNone = PBool false
              <-> (2 <= length associated)%nat)
          /\ Api.map_get Api.severity_map
               (dict_get triage "severity_level" (PStr "UNKNOWN")) (PStr "unknown")
             = Ret (dict_get body "severity" PNone)).
Proof.
  split.
  - intros extract classify_stage plan_stage summarize fresh_id history_window
      store id message Hne c turn.
    destruct (more_info_decision extract classify_stage plan_stage summarize
                fresh_id history_window store id message Hne) as [Hyes Hno].
    split; [ | exact Hno ].
    intros Hask. destruct (Hyes Hask) as (H1 & H2 & H3 & _ & H5 & H6).
    repeat split; assumption.
  - intros W care request w w' rs triage symptoms associated Hrun Ht Hs Ha Hh.
    destruct (chat_triage_needs_more_info care request w w' rs triage symptoms
                associated Hrun Ht Hs Ha Hh) as (body & Hb & Hn & Hsev & _).
    exists body. split; [ exact Hb | ]. rewrite Hn.
    destruct (Z.ltb_spec (Z.of_nat (length associated)) 2);
      repeat split; intros; try congruence; try lia.
Qed.

(** An instance: a first turn on which nothing is extracted, and a workflow
    answer with one associated symptom. *)
Lemma more_info_signal_witness :
  Spec.turn_outcome
    (fst (Spec.process_turn Samples.silent_extractor Samples.sample_classifier
            Samples.sample_planner Samples.sample_summarizer Samples.sample_fresh_id
            5 ∅ None "hello")) = Spec.MORE_INFO
  /\ exists body,
       Api.chat_triage Samples.recording_workflow
         (Samples.request "I have a headache and a fever") []
       = (Ret body, [Api.triage_state (Samples.request "I have a headache and a fever")])
       /\ dict_get body "needsMoreInfo" PNone = PBool true.
Proof.
  destruct more_info_signal as [Hspec Hcode]. split.
  - apply (Hspec Samples.silent_extractor Samples.sample_classifier
             Samples.sample_planner Samples.sample_summarizer Samples.sample_fresh_id
             5%nat ∅ None "hello").
    + vm_compute. discriminate.
    + exists Spec.empty_frame. repeat split.
  - destruct (Hcode (list dict) Samples.recording_workflow
                (Samples.request "I have a headache and a fever") []
                [Api.triage_state (Samples.request "I have a headache and a fever")]
                Samples.green_state
                [ ("severity_level", PStr "GREEN");
                  ("rationale", PStr "no red flags identified");
                  ("recommended_action", PStr "self-care");
                  ("red_flags_triggered", PList []);
                  ("care_instructions", PList [PStr "rest"]) ]
                [ ("chief_complaint", PStr "headache");
                  ("associated_symptoms", PList [PStr "fever"]) ]
                [PStr "fever"]
                eq_refl eq_refl eq_refl eq_refl eq_refl)
      as (body & Hb & Hn & _).
    exists body. split; [ exact Hb | ]. apply Hn. simpl. lia.
Defined.

(** * Further properties of the sources *)

(** ** [chat_triage] *)

Section ChatTriageFacts.
Import Api ApiStatus.
Context {W : Type}.
Variable care_app_invoke : dict -> io W pyval.


(** X1: [chat_triage] answers every request with a body, whatever the
    workflow returns or raises, and the body always has the same ten keys
    and carries the disclaimer. *)
Theorem chat_triage_always_answers (request : ChatRequest) (w : W) :
  exists body,
    fst (chat_triage care_app_invoke request w) = Ret body
    /\ fst <$> body = chat_triage_keys
    /\ dict_get body "disclaimer" PNone = PStr DISCLAIMER.
Proof.
  unfold chat_triage. destruct (care_app_invoke _ w) as [r w']. cbn [fst].
  destruct r as [rs|e]; [ | cbn; eexists; repeat split ].
  unfold generate_user_message, mbind, outcome_bind. cbn [obind].
  repeat bind_step.
  all: cbn [obind try_except]; eexists; repeat split.
Qed.



(** X3: when the workflow's state holds no triage and no symptoms, the
    body has severity ["unknown"], no escalation, confidence 0.8 and no
    suggested action, it asks for more information, and its recommendation
    is the self-care message. *)
Theorem chat_triage_without_triage (request : ChatRequest) (w w' : W)
    (result_state : dict) :
  care_app_invoke (triage_state request) w = (Ret (PDict result_state), w') ->
  assoc "triage" result_state = None ->
  assoc "symptoms" result_state = None ->
  chat_triage care_app_invoke request w
  = (Ret [ ("severity", PStr "unknown");
           ("confidence", PFloat 0.8);
           ("recommendation", PStr GREEN_MESSAGE);
           ("suggestedActions", PList []);
           ("disclaimer", PStr DISCLAIMER);
           ("needsEscalation", PBool false);
           ("carePathway", dict_get result_state "action" (PDict []));
           ("actionPlan", dict_get result_state "action" (PDict []));
           ("needsMoreInfo", PBool true);
           ("possibleConditions", PList []) ], w').
Proof.
  intros Hrun Ht Hs. unfold chat_triage. fold (triage_state request).
  rewrite Hrun. unfold mbind, outcome_bind. cbn [obind py_get].
  assert (Ht' : dict_get result_state "triage" (PDict []) = PDict [])
    by (unfold dict_get; rewrite Ht; reflexivity).
  assert (Hs' : dict_get result_state "symptoms" (PDict []) = PDict [])
    by (unfold dict_get; rewrite Hs; reflexivity).
  rewrite Ht', Hs'. reflexivity.
Qed.

End ChatTriageFacts.

(** ** [process_chat] and [quick_triage] *)

Section ProcessChatFacts.
Import Api.
Context {pydantic_core : Pydantic.PydanticCore}.
Context {W : Type}.
Variable care_app_invoke : dict -> io W pyval.

(** What a successful answer of [process_chat] is made of. *)
Lemma process_chat_inversion (request : ChatRequest) (w : W) (response : ChatResponse) :
  fst (process_chat care_app_invoke request w) = Ret response ->
  exists result_state tr ac,
    fst (care_app_invoke (chat_state request) w) = Ret result_state
    /\ py_get result_state "case_id" PNone = Ret (PStr (case_id response))
    /\ py_get result_state "triage" (PDict []) = Ret tr
    /\ py_get result_state "action" (PDict []) = Ret ac
    /\ generate_user_message tr ac = Ret (response_message response)
    /\ TriageResult_init tr = Ret (triage response)
    /\ status response = "success".
Proof.
  unfold process_chat. fold (chat_state request).
  destruct (care_app_invoke (chat_state request) w) as [r w']. cbn [fst].
  destruct r as [rs|e]; [ | discriminate ].
  unfold mbind, outcome_bind. cbn [obind].
  destruct (py_get rs "case_id" PNone) as [cid|] eqn:Hcid; [ | now cbn ].
  cbn [obind].
  destruct (py_get rs "symptoms" (PDict [])) as [sy|]; [ | now cbn ].
  cbn [obind].
  destruct (py_get rs "triage" (PDict [])) as [tr|] eqn:Htr; [ | now cbn ].
  cbn [obind].
  destruct (py_get rs "action" (PDict [])) as [ac|] eqn:Hac; [ | now cbn ].
  cbn [obind].
  destruct (py_get rs "summary" (PDict [])) as [su|]; [ | now cbn ].
  cbn [obind].
  destruct (generate_user_message tr ac) as [msg|] eqn:Hmsg; [ | now cbn ].
  cbn [obind].
  destruct (SymptomFrame_init sy) as [sy'|]; [ | now cbn ].
  cbn [obind].
  destruct (TriageResult_init tr) as [tr'|] eqn:Hinit; [ | now cbn ].
  cbn [obind].
  destruct (ActionPlan_init ac) as [ac'|]; [ | now cbn ].
  cbn [obind].
  destruct (SummaryResult_init su) as [su'|]; [ | now cbn ].
  cbn [obind].
  destruct cid as [| | | | cid | |]; try (now cbn).
  cbn [Pydantic.str_field obind try_except]. intros [= <-].
  exists rs, tr, ac. cbn. repeat split; assumption.
Qed.

(** X4: in a successful answer of [process_chat] the conversational
    message agrees with the severity level of the triage in the same answer:
    it is the emergency message exactly for ["RED"], the appointment message
    exactly for ["AMBER"], and the self-care message otherwise. *)
Theorem process_chat_message_matches_severity (request : ChatRequest) (w : W)
    (response : ChatResponse) :
  fst (process_chat care_app_invoke request w) = Ret response ->
  (response_message response = RED_MESSAGE
     <-> severity_level (triage response) = "RED")
  /\ (response_message response = AMBER_MESSAGE
      <-> severity_level (triage response) = "AMBER")
  /\ (response_message response = GREEN_MESSAGE
      <-> severity_level (triage response) <> "RED"
          /\ severity_level (triage response) <> "AMBER").
Proof.
  intros H.
  destruct (process_chat_inversion request w response H)
    as (rs & tr & ac & _ & _ & _ & _ & Hmsg & Hinit & _).
  destruct (TriageResult_init_severity tr (triage response) Hinit) as (d & -> & Hd).
  revert Hmsg. unfold generate_user_message, mbind, outcome_bind.
  cbn [py_get obind]. unfold dict_get. rewrite Hd. cbn [eq_str].
  destruct messages_distinct as (Hra & Hrg & Hag).
  destruct (String.eqb_spec (severity_level (triage response)) "RED") as [Hr|Hr];
    [ | destruct (String.eqb_spec (severity_level (triage response)) "AMBER")
          as [Ha|Ha] ];
    intros [= <-]; try rewrite Hr; try rewrite Ha;
    repeat split; intros;
    first [ reflexivity | congruence | discriminate
          | match goal with Hc : _ /\ _ |- _ => destruct Hc; congruence end ].
Qed.

(** [quick_triage] raises nothing but [HTTPException] 500 with the text of
    the exception in its detail. *)
Lemma quick_triage_raises_500 (request : ChatRequest) (w : W) (e : pyexn) :
  fst (quick_triage care_app_invoke request w) = Raise e ->
  exists cause, e = HTTPException 500 ("Triage failed: " +:+ exn_str cause).
Proof.
  unfold quick_triage. destruct (care_app_invoke _ w) as [r w']. cbn [fst].
  match goal with |- try_except ?m _ = _ -> _ => destruct m as [b|e'] end;
    cbn; [ discriminate | intros [= <-]; eauto ].
Qed.

(** X5: on a state without triage the two endpoints part ways:
    [quick_triage] answers 200 with a null severity, rationale and action
    and no red flag, while [process_chat] answers 500. *)
Theorem missing_triage_quick_and_chat (request : ChatRequest) (w w' : W)
    (result_state : dict) :
  care_app_invoke (chat_state request) w = (Ret (PDict result_state), w') ->
  assoc "triage" result_state = None ->
  quick_triage care_app_invoke request w
  = (Ret [ ("severity", PNone); ("rationale", PNone);
           ("red_flags", PList []); ("action", PNone) ], w')
  /\ http_status (respond (fst (process_chat care_app_invoke request w))) = 500.
Proof.
  intros Hrun Ht.
  assert (Ht' : dict_get result_state "triage" (PDict []) = PDict [])
    by (unfold dict_get; rewrite Ht; reflexivity).
  split.
  - unfold quick_triage. fold (chat_state request). rewrite Hrun.
    unfold mbind, outcome_bind. cbn [obind py_get]. rewrite Ht'. reflexivity.
  - destruct (fst (process_chat care_app_invoke request w)) as [response|e] eqn:H.
    + destruct (process_chat_inversion request w response H)
        as (rs & tr & ac & Hrs & _ & Htr & _ & _ & Hinit & _).
      rewrite Hrun in Hrs. cbn [fst] in Hrs. injection Hrs as <-.
      cbn [py_get] in Htr. rewrite Ht' in Htr. injection Htr as <-.
      discriminate Hinit.
    + destruct (process_chat_raises_500 care_app_invoke request w e H) as [d ->].
      reflexivity.
Qed.

(** X6: [quick_triage] answers with status 200 or 500, never another
    one, and it answers 500 whenever the workflow raises, with the text of
    the exception after "Triage failed: ". *)
Theorem quick_triage_statuses (request : ChatRequest) (w : W) :
  (http_status (respond (fst (quick_triage care_app_invoke request w))) = 200
   \/ http_status (respond (fst (quick_triage care_app_invoke request w))) = 500)
  /\ (forall e w',
        care_app_invoke (chat_state request) w = (Raise e, w') ->
        respond (fst (quick_triage care_app_invoke request w))
        = HttpError 500 ("Triage failed: " +:+ exn_str e)).
Proof.
  split.
  - destruct (fst (quick_triage care_app_invoke request w)) as [b|e] eqn:H;
      [ unfold respond; destruct (renders b); [ left | right ]; reflexivity
      | right ].
    destruct (quick_triage_raises_500 request w e H) as [c ->]. reflexivity.
  - intros e w' Hrun. unfold quick_triage. fold (chat_state request).
    rewrite Hrun. reflexivity.
Qed.

End ProcessChatFacts.

(** ** The severity levels the API lets through *)

Section SeverityLevels.
Import Api.
Context {pydantic_core : Pydantic.PydanticCore}.




End SeverityLevels.

Section SeverityLevelsInstances.
#[local] Existing Instance Samples.core.


End SeverityLevelsInstances.

(** ** Request validation, [get_case] and the status endpoints *)

Section RoutesFacts.
Import Api ApiStatus.

(** X7: a body that is not an object, or an object without [message], is
    answered 422 by every POST route taking a [ChatRequest], and the handler
    is not run: the world is left as it was. *)
Theorem request_without_message_rejected {W A : Type} {rendering : Rendering A}
    (handler : ChatRequest -> io W A) (body : pyval) (w : W) :
  (forall d, body = PDict d -> assoc "message" d = None) ->
  exists detail, post_route handler body w = (HttpError 422 detail, w).
Proof.
  intros Hno. unfold post_route, ChatRequest_validate.
  destruct body as [| | | | | |d]; try (eexists; reflexivity).
  unfold Pydantic.required. rewrite (Hno d eq_refl).
  eexists. reflexivity.
Qed.

(** X10: [get_case] answers 200 exactly when [load_case] returns a truthy
    value that can be written as JSON (no float in it is infinite or NaN),
    and then the body is that value; in every other case (a falsy value, a
    value that cannot be written, an exception) the status is 500. *)
Theorem get_case_statuses {W : Type} (load_case : string -> io W pyval)
    (case_id : string) (w : W) :
  (forall v, fst (get_route (get_case load_case) case_id w) = Http200 v
             <-> fst (load_case case_id w) = Ret v
                 /\ truthy v = true /\ json_compliant v = true)
  /\ (http_status (fst (get_route (get_case load_case) case_id w)) = 200
      \/ http_status (fst (get_route (get_case load_case) case_id w)) = 500).
Proof.
  unfold get_route, get_case.
  destruct (load_case case_id w) as [r w']. cbn [fst].
  destruct r as [v|e]; cbn [obind mbind outcome_bind try_except].
  - destruct (truthy v) eqn:Hv; cbn [negb try_except respond].
    + unfold renders, pyval_rendering.
      destruct (json_compliant v) eqn:Hj.
      * split; [ | left; reflexivity ].
        intros v'. split; [ intros [= <-]; repeat split; assumption
                          | intros [[= <-] _]; reflexivity ].
      * split; [ | right; reflexivity ].
        intros v'. split; [ discriminate | intros ([= <-] & _ & Hj'); congruence ].
    + split; [ | right; reflexivity ].
      intros v'. split; [ discriminate | intros ([= <-] & Hv' & _); congruence ].
  - cbn. split; [ | right; reflexivity ].
    intros v'. split; [ discriminate | intros [Hl _]; discriminate Hl ].
Qed.

(** X8: [health_check] always answers; the overall status is
    ["healthy"] exactly when the Ollama tags endpoint answered 200, and
    ["degraded"], with Ollama ["unavailable"], for any other status code and
    for any exception; the API and LangGraph entries are always
    ["healthy"]. *)
Theorem health_check_status (requests_get : string -> Z -> outcome Z) :
  let probe := requests_get "http://localhost:11434/api/tags" 2 in
  let body := health_check requests_get in
  exists services,
    dict_get body "services" PNone = PDict services
    /\ dict_get services "api" PNone = PStr "healthy"
    /\ dict_get services "langgraph" PNone = PStr "healthy"
    /\ (dict_get body "status" PNone = PStr "healthy" <-> probe = Ret 200)
    /\ (dict_get body "status" PNone = PStr "degraded" <-> probe <> Ret 200)
    /\ (dict_get services "ollama" PNone = PStr "healthy" <-> probe = Ret 200)
    /\ (dict_get services "ollama" PNone = PStr "unavailable" <-> probe <> Ret 200).
Proof.
  intros probe body. unfold body, health_check. fold probe.
  destruct probe as [sc|e].
  - destruct (Z.eqb_spec sc 200) as [->|Hne]; eexists;
      (split; [ reflexivity | ]); cbn;
      repeat split; intros; try congruence; try discriminate.
  - eexists. split; [ reflexivity | ]. cbn.
    repeat split; intros; try congruence; try discriminate.
Qed.

(** X9: the model [root] reports and the model [generate_summaries] calls
    are the same when [OLLAMA_MODEL] is set, and differ when it is not:
    [root] then reports ["medllama2"] while the summary is asked of
    ["biomistral"]. *)
Theorem reported_and_called_model (getenv : string -> option string)
    (chat_invoke : string -> string -> string -> outcome pyval) (text : string) :
  (forall m, getenv "OLLAMA_MODEL" = Some m ->
     dict_get (root getenv) "model" PNone = PStr m
     /\ SummaryChain.service_call getenv chat_invoke text
        = (content ← chat_invoke m SummaryChain.SYSTEM_PROMPT text;
           SummaryChain.content_strip content))
  /\ (getenv "OLLAMA_MODEL" = None ->
      dict_get (root getenv) "model" PNone = PStr "medllama2"
      /\ SummaryChain.service_call getenv chat_invoke text
         = (content ← chat_invoke "biomistral" SummaryChain.SYSTEM_PROMPT text;
            SummaryChain.content_strip content)).
Proof.
  unfold root, SummaryChain.service_call. split.
  - intros m ->. split; reflexivity.
  - intros ->. split; reflexivity.
Qed.

End RoutesFacts.

(** ** More on [generate_summaries] *)

Section MoreSummaries.
Import SummaryChain.
Variable py_repr : pyval -> string.

(** X11: only the first three instructions of the action plan reach the
    patient summary: an action plan and the same plan cut to its first three
    instructions give the same template, so whatever stands after the third
    instruction, a value that is not a string included, is ignored. *)
Theorem patient_template_first_three (triage_result : pyval)
    (action1 action2 : dict) (l : list pyval) :
  dict_get action1 "type" (PStr "review") = dict_get action2 "type" (PStr "review") ->
  assoc "instructions" action1 = Some (PList l) ->
  assoc "instructions" action2 = Some (PList (take 3 l)) ->
  patient_template py_repr triage_result (PDict action1)
  = patient_template py_repr triage_result (PDict action2).
Proof.
  intros Hty H1 H2. unfold patient_template, mbind, outcome_bind.
  destruct (py_get triage_result "severity_level" (PStr "UNKNOWN")) as [sev|e];
    [ | reflexivity ].
  assert (E1 : dict_get action1 "instructions" (PList []) = PList l)
    by (unfold dict_get; rewrite H1; reflexivity).
  assert (E2 : dict_get action2 "instructions" (PList []) = PList (take 3 l))
    by (unfold dict_get; rewrite H2; reflexivity).
  cbn [obind py_get]. rewrite Hty, E1, E2.
  cbn [py_slice_to obind]. rewrite take_take, Nat.min_id.
  destruct l as [|x l]; reflexivity.
Qed.


(** X13: a null [associated_symptoms] makes [generate_summaries] raise a
    [TypeError], whatever the service does, although the patient template
    could be built. *)
Theorem null_associated_symptoms_raise (avail : bool)
    (getenv : string -> option string)
    (chat_invoke : string -> string -> string -> outcome pyval)
    (user_input : string) (symptoms : dict) (triage_result action_plan : pyval)
    (template : string) :
  patient_template py_repr triage_result action_plan = Ret template ->
  assoc "associated_symptoms" symptoms = Some PNone ->
  generate_summaries py_repr avail getenv chat_invoke
    user_input (PDict symptoms) triage_result action_plan
  = Raise (PyError "TypeError" "can only join an iterable").
Proof.
  intros Hp Ha. unfold generate_summaries, mbind, outcome_bind. rewrite Hp.
  cbn [obind].
  destruct (py_get triage_result "severity_level" (PStr "UNKNOWN")) as [sev|e] eqn:Hs.
  - cbn [obind]. unfold clinician_template, mbind, outcome_bind.
    assert (E : dict_get symptoms "associated_symptoms" (PList []) = PNone)
      by (unfold dict_get; rewrite Ha; reflexivity).
    cbn [py_get obind]. rewrite E. reflexivity.
  - unfold patient_template, mbind, outcome_bind in Hp. rewrite Hs in Hp.
    discriminate Hp.
Qed.

(** X14: the user's message enters the summaries only as the default of a
    missing [chief_complaint]: when the symptoms hold that key, with any
    value, two different messages give the same result. *)
Theorem user_input_only_a_default (avail : bool)
    (getenv : string -> option string)
    (chat_invoke : string -> string -> string -> outcome pyval)
    (input1 input2 : string) (symptoms : dict) (chief : pyval)
    (triage_result action_plan : pyval) :
  assoc "chief_complaint" symptoms = Some chief ->
  generate_summaries py_repr avail getenv chat_invoke
    input1 (PDict symptoms) triage_result action_plan
  = generate_summaries py_repr avail getenv chat_invoke
      input2 (PDict symptoms) triage_result action_plan.
Proof.
  intros Hc. unfold generate_summaries, clinician_template, mbind, outcome_bind.
  assert (E : forall input, dict_get symptoms "chief_complaint" (PStr input) = chief)
    by (intros input; unfold dict_get; rewrite Hc; reflexivity).
  cbn [py_get obind]. rewrite !E. reflexivity.
Qed.

End MoreSummaries.

(** ** The patient registry of [medical_llama/main.py] *)

Section PatientsFacts.
Import Patients.
Variable json_dumps : pyval -> string.
Variable json_loads : string -> outcome pyval.

Local Abbreviation register_patient := (Patients.register_patient json_dumps).
Local Abbreviation update_patient := (Patients.update_patient json_dumps).
Local Abbreviation get_patient := (Patients.get_patient json_loads).
Local Abbreviation round_trips := (Patients.round_trips json_dumps json_loads).

Lemma list_str_items_strs (model k : string) (l : list string) :
  Pydantic.list_str_items model k (PStr <$> l) = Ret l.
Proof.
  induction l as [|x l IH]; [ reflexivity | ].
  rewrite fmap_cons. cbn [Pydantic.list_str_items Pydantic.str_field].
  unfold mbind, outcome_bind in *. cbn [obind]. rewrite IH. reflexivity.
Qed.

Lemma opt_list_str_field_strs (model k : string) (l : list string) :
  opt_list_str_field model k (str_list l) = Ret (Some l).
Proof.
  unfold opt_list_str_field, str_list, Pydantic.list_str_field, mbind, outcome_bind.
  rewrite list_str_items_strs. reflexivity.
Qed.

Lemma loads_or_round_trip (v default : pyval) :
  round_trips v -> loads_or json_loads (Some (json_dumps v)) default = Ret v.
Proof.
  intros [Hne Hrt]. unfold loads_or.
  destruct (String.eqb_spec (json_dumps v) "") as [E|_]; [ contradiction | exact Hrt ].
Qed.

(** Reading back the row a profile was stored as. *)
Lemma get_patient_row_of (pid : string) (profile : PatientProfile)
    (language : option string) (created : option Z) (now : Z)
    (db : Database.Database) :
  Database.patients db !! pid = Some (row_of json_dumps profile language created now) ->
  Forall round_trips (stored_values profile) ->
  get_patient pid db = (Ret (returned pid profile), db).
Proof.
  intros Hrow Hrt. unfold Patients.get_patient. rewrite Hrow.
  unfold stored_values in Hrt.
  apply Forall_cons in Hrt as [H1 Hrt]. apply Forall_cons in Hrt as [H2 Hrt].
  apply Forall_cons in Hrt as [H3 Hrt]. apply Forall_cons in Hrt as [H4 _].
  cbn [row_of Database.medical_history Database.allergies
       Database.current_medications Database.notification_preferences
       Database.name Database.age].
  rewrite !loads_or_round_trip by assumption.
  unfold mbind, outcome_bind. cbn [obind].
  unfold PatientProfile_init, mbind, outcome_bind. cbn [column_str int_field obind].
  rewrite !opt_list_str_field_strs. reflexivity.
Qed.

(** X15: a patient cannot be registered twice: once a registration has
    succeeded, any later registration under the same id, whatever the
    profile, is refused with status 400 and changes nothing. *)
Theorem register_twice_refused (first second returned_profile : PatientProfile)
    (created updated created' updated' : Z) (db db' : Database.Database) :
  register_patient first created updated db = (Ret returned_profile, db') ->
  patient_id second = patient_id first ->
  register_patient second created' updated' db'
  = (Raise (HTTPException 400 "Patient already registered"), db').
Proof.
  unfold Patients.register_patient. intros H Hid.
  destruct (Database.patients db !! patient_id first); [ discriminate H | ].
  destruct (Database.sqlite_int_ok (age first)); [ | discriminate H ].
  injection H as _ <-. rewrite Hid. cbn [Database.set_patients Database.patients].
  rewrite lookup_insert_eq. reflexivity.
Qed.

(** X16: registering a patient and then reading it gives the registered
    profile back, with every missing list read as the empty list and missing
    notification preferences as the empty dict: for a free id, an age SQLite
    can hold, and values [json] round-trips. *)
Theorem register_then_get (profile : PatientProfile) (created updated : Z)
    (db : Database.Database) :
  Database.patients db !! patient_id profile = None ->
  Database.sqlite_int_ok (age profile) = true ->
  Forall round_trips (stored_values profile) ->
  exists db',
    register_patient profile created updated db
    = (Ret (returned (patient_id profile) profile), db')
    /\ get_patient (patient_id profile) db'
       = (Ret (returned (patient_id profile) profile), db').
Proof.
  intros Hfree Hage Hrt. unfold Patients.register_patient. rewrite Hfree, Hage.
  eexists. split; [ reflexivity | ].
  apply get_patient_row_of
    with (language := Some "en") (created := Some created) (now := updated);
    [ | exact Hrt ].
  cbn [Database.set_patients Database.patients]. apply lookup_insert_eq.
Qed.

(** X17: registration adds exactly one row: afterwards the registered ids
    are the old ones and the new one, every other patient's row and all
    interactions are as before, and the new row has language ["en"], the
    clock reading of the [created_at] default as creation time and the
    reading of the [updated_at] default, a call of its own, as update time. *)
Theorem register_adds_one_row (profile returned_profile : PatientProfile)
    (created updated : Z) (db db' : Database.Database) :
  register_patient profile created updated db = (Ret returned_profile, db') ->
  dom (Database.patients db') = {[ patient_id profile ]} ∪ dom (Database.patients db)
  /\ ~ (patient_id profile ∈ dom (Database.patients db))
  /\ (forall other, other <> patient_id profile ->
        Database.patients db' !! other = Database.patients db !! other)
  /\ Database.interactions db' = Database.interactions db
  /\ Database.medical_events db' = Database.medical_events db
  /\ exists row,
       Database.patients db' !! patient_id profile = Some row
       /\ Database.preferred_language row = Some "en"
       /\ Database.created_at row = Some created
       /\ Database.updated_at row = Some updated.
Proof.
  unfold Patients.register_patient. intros H.
  destruct (Database.patients db !! patient_id profile) eqn:Hfree; [ discriminate H | ].
  destruct (Database.sqlite_int_ok (age profile)); [ | discriminate H ].
  injection H as _ <-. cbn [Database.set_patients Database.patients
                            Database.interactions Database.medical_events].
  split; [ apply dom_insert_L | ].
  split; [ apply not_elem_of_dom; exact Hfree | ].
  split; [ intros other Hne; apply lookup_insert_ne; congruence | ].
  split; [ reflexivity | ]. split; [ reflexivity | ].
  eexists. split; [ apply lookup_insert_eq | ]. repeat split.
Qed.

(** X18: [update_patient] works on the row of the id in the path and
    ignores the [patient_id] of the body: the returned profile carries the
    path's id, the set of registered ids is unchanged, every other row (the
    one under the body's id, if different, included) is as before, and the
    updated row keeps its language and creation time and gets the time of
    the call as update time. *)
Theorem update_keeps_the_key (pid : string) (profile : PatientProfile) (now : Z)
    (db : Database.Database) (row : Database.Patient) :
  Database.patients db !! pid = Some row ->
  Database.sqlite_int_ok (age profile) = true ->
  exists db' row',
    update_patient pid profile now db = (Ret (returned pid profile), db')
    /\ patient_id (returned pid profile) = pid
    /\ dom (Database.patients db') = dom (Database.patients db)
    /\ (forall other, other <> pid ->
          Database.patients db' !! other = Database.patients db !! other)
    /\ Database.interactions db' = Database.interactions db
    /\ Database.patients db' !! pid = Some row'
    /\ Database.preferred_language row' = Database.preferred_language row
    /\ Database.created_at row' = Database.created_at row
    /\ Database.updated_at row' = Some now.
Proof.
  intros Hrow Hage. unfold Patients.update_patient. rewrite Hrow, Hage.
  do 2 eexists. split; [ reflexivity | ].
  cbn [Database.set_patients Database.patients Database.interactions].
  split; [ reflexivity | ].
  split.
  { rewrite dom_insert_L.
    apply subseteq_union_1_L, singleton_subseteq_l, elem_of_dom. eauto. }
  split; [ intros other Hne; apply lookup_insert_ne; congruence | ].
  split; [ reflexivity | ].
  split; [ apply lookup_insert_eq | ]. repeat split.
Qed.

(** X19: updating a patient and then reading it gives the updated
    profile back under the path's id. *)
Theorem update_then_get (pid : string) (profile : PatientProfile) (now : Z)
    (db : Database.Database) (row : Database.Patient) :
  Database.patients db !! pid = Some row ->
  Database.sqlite_int_ok (age profile) = true ->
  Forall round_trips (stored_values profile) ->
  exists db',
    update_patient pid profile now db = (Ret (returned pid profile), db')
    /\ get_patient pid db' = (Ret (returned pid profile), db').
Proof.
  intros Hrow Hage Hrt. unfold Patients.update_patient. rewrite Hrow, Hage.
  eexists. split; [ reflexivity | ].
  apply get_patient_row_of
    with (language := Database.preferred_language row)
         (created := Database.created_at row) (now := now); [ | exact Hrt ].
  cbn [Database.set_patients Database.patients]. apply lookup_insert_eq.
Qed.

(** X20: for an id without a row, reading, updating and asking for the
    history are each refused with status 404, and none changes the
    database. *)
Theorem unknown_patient_is_404 (pid : string) (profile : PatientProfile)
    (now limit : Z) (db : Database.Database) :
  Database.patients db !! pid = None ->
  get_patient pid db = (Raise (HTTPException 404 "Patient not found"), db)
  /\ update_patient pid profile now db
     = (Raise (HTTPException 404 "Patient not found"), db)
  /\ get_conversation_history pid limit db
     = (Raise (HTTPException 404 "Patient not found"), db).
Proof.
  intros H. unfold Patients.get_patient, Patients.update_patient,
    get_conversation_history. rewrite H. repeat split.
Qed.

End PatientsFacts.

(** ** The conversation history *)

Section HistoryFacts.
Import Patients.
#[local] Existing Instance Database.time_le_dec.
#[local] Existing Instance Database.newer_first_dec.

#[local] Instance time_le_trans : Transitive Database.time_le.
Proof.
  intros [x|] [y|] [z|]; unfold Database.time_le; try tauto. lia.
Qed.

#[local] Instance newer_first_trans : Transitive Database.newer_first.
Proof.
  intros i j k Hij Hjk. unfold Database.newer_first in *.
  exact (time_le_trans _ _ _ Hjk Hij).
Qed.

#[local] Instance newer_first_total : Total Database.newer_first.
Proof.
  intros i j. unfold Database.newer_first, Database.time_le.
  destruct (Database.timestamp i), (Database.timestamp j); try tauto. lia.
Qed.

Lemma StronglySorted_reverse {A} (R : relation A) (l : list A) :
  StronglySorted R l -> StronglySorted (flip R) (reverse l).
Proof.
  induction 1 as [|x l Hl IH Hx]; [ constructor | ].
  rewrite reverse_cons. apply StronglySorted_app_2; [ | exact IH | repeat constructor ].
  intros a b Ha Hb. apply list_elem_of_singleton in Hb as ->.
  rewrite elem_of_reverse in Ha. rewrite Forall_forall in Hx. apply Hx, Ha.
Qed.

Lemma StronglySorted_Forall2 {A B} (R1 : relation A) (R2 : relation B)
    (P : A -> B -> Prop) (l1 : list A) (l2 : list B) :
  (forall a1 a2 b1 b2, P a1 b1 -> P a2 b2 -> R1 a1 a2 -> R2 b1 b2) ->
  Forall2 P l1 l2 -> StronglySorted R1 l1 -> StronglySorted R2 l2.
Proof.
  intros HR HF. induction HF as [|a b l1 l2 Hab HF IH]; intros Hs; [ constructor | ].
  apply StronglySorted_cons in Hs as [Ha Hs].
  apply StronglySorted_cons. split; [ | apply IH, Hs ].
  clear IH Hs. induction HF as [|a' b' l1 l2 Hab' HF IH]; [ constructor | ].
  apply Forall_cons in Ha as [Ha Ha']. constructor; [ | apply IH, Ha' ].
  exact (HR _ _ _ _ Hab Hab' Ha).
Qed.

Lemma each_Forall2 {A B} (f : A -> outcome B) (l : list A) :
  Forall (fun x => exists y, f x = Ret y) l ->
  exists r, each f l = Ret r /\ Forall2 (fun x y => f x = Ret y) l r.
Proof.
  induction 1 as [|x l [y Hy] _ (r & Hr & HF)]; [ exists []; split; constructor | ].
  exists (y :: r). cbn [each]. unfold mbind, outcome_bind in *.
  rewrite Hy. cbn [obind]. rewrite Hr. split; [ reflexivity | constructor; assumption ].
Qed.

Lemma entry_of_complete (pid : string) (i : Database.Interaction) :
  Database.of_patient pid i = true -> has_history_columns i ->
  exists h, entry_of i h.
Proof.
  unfold Database.of_patient, has_history_columns, entry_of, ConversationHistory_init.
  intros Hp ([u Hu] & [a Ha] & [t Ht]).
  destruct (Database.patient_id i) as [p|]; [ | discriminate Hp ].
  rewrite Hu, Ha, Ht. eexists. reflexivity.
Qed.

Lemma entry_of_fields (pid : string) (i : Database.Interaction)
    (h : ConversationHistory) :
  Database.of_patient pid i = true -> entry_of i h ->
  history_patient_id h = pid
  /\ Database.user_message i = Some (user h)
  /\ Database.assistant_response i = Some (assistant h)
  /\ Database.timestamp i = Some (timestamp h)
  /\ Database.severity i = severity h.
Proof.
  unfold Database.of_patient, entry_of, ConversationHistory_init, mbind, outcome_bind.
  destruct (Database.patient_id i) as [p|]; [ | discriminate ].
  intros Hp. apply String.eqb_eq in Hp as ->.
  destruct (Database.user_message i) as [u|]; [ | discriminate ].
  destruct (Database.assistant_response i) as [a|]; [ | discriminate ].
  destruct (Database.timestamp i) as [t|]; [ | discriminate ].
  cbn. intros [= <-]. repeat split.
Qed.

(** X21: for a registered patient whose interactions have a message, a
    response and a time, and a limit from 0 up, the history is returned and
    the database is unchanged; it holds as many entries as the limit allows
    (all of the patient's interactions when they are fewer), each made from
    one of the patient's interactions and carrying the patient's id; the
    entries are in chronological order, oldest first; and every interaction
    left out is at most as recent as every interaction returned. *)
Theorem conversation_history_most_recent (pid : string) (limit : Z)
    (db : Database.Database) (row : Database.Patient) :
  Database.patients db !! pid = Some row ->
  (0 <= limit < 2 ^ 63)%Z ->
  Forall has_history_columns (interactions_of pid db) ->
  exists returned_rows older history,
    get_conversation_history pid limit db = (Ret history, db)
    /\ Forall2 entry_of returned_rows history
    /\ interactions_of pid db ≡ₚ returned_rows ++ older
    /\ length history = Nat.min (Z.to_nat limit) (length (interactions_of pid db))
    /\ Forall (fun h => history_patient_id h = pid) history
    /\ StronglySorted (fun h1 h2 => (timestamp h1 <= timestamp h2)%Z) history
    /\ (forall o r, o ∈ older -> r ∈ returned_rows ->
          Database.time_le (Database.timestamp o) (Database.timestamp r)).
Proof.
  intros Hrow [Hlo Hhi] Hcomplete.
  set (P := interactions_of pid db) in *.
  set (S := merge_sort Database.newer_first P).
  set (n := Z.to_nat limit).
  assert (HSP : S ≡ₚ P) by apply merge_sort_Permutation.
  assert (HSS : StronglySorted Database.newer_first S)
    by (apply StronglySorted_merge_sort; apply _).
  assert (Hof : forall i, i ∈ S -> Database.of_patient pid i = true).
  { intros i Hi. rewrite HSP in Hi. apply list_elem_of_In in Hi.
    apply filter_In in Hi. apply Hi. }
  assert (Hcols : forall i, i ∈ S -> has_history_columns i).
  { intros i Hi. rewrite HSP in Hi. rewrite Forall_forall in Hcomplete.
    apply Hcomplete, Hi. }
  assert (Hin : forall i, i ∈ reverse (take n S) -> i ∈ S).
  { intros i Hi. rewrite elem_of_reverse in Hi. eapply subseteq_take, Hi. }
  destruct (each_Forall2 ConversationHistory_init (reverse (take n S)))
    as (history & Heach & HF).
  { apply Forall_forall. intros i Hi.
    apply (entry_of_complete pid); [ apply Hof | apply Hcols ]; apply Hin, Hi. }
  exists (reverse (take n S)), (drop n S), history.
  split.
  { unfold get_conversation_history. rewrite Hrow.
    unfold Database.recent_interactions, Database.sqlite_int_ok, Database.sql_limit.
    fold (interactions_of pid db). fold P. fold S.
    replace ((- 2 ^ 63 <=? limit)%Z && (limit <? 2 ^ 63)%Z) with true
      by (symmetry; apply andb_true_intro; split;
          [ apply Z.leb_le | apply Z.ltb_lt ]; lia).
    replace (limit <? 0)%Z with false by (symmetry; apply Z.ltb_ge; lia).
    fold n. unfold mbind, outcome_bind. cbn [obind]. rewrite Heach. reflexivity. }
  split; [ exact HF | ].
  split.
  { rewrite reverse_Permutation, take_drop. symmetry. exact HSP. }
  split.
  { rewrite <- (Forall2_length _ _ _ HF), length_reverse, length_take.
    rewrite HSP. reflexivity. }
  split.
  { apply Forall_forall. intros h Hh.
    destruct (proj1 (list_elem_of_lookup _ _) Hh) as [k Hk].
    destruct (Forall2_lookup_r _ _ _ _ _ HF Hk) as (i & Hi & Hih).
    apply (entry_of_fields pid i h); [ | exact Hih ].
    apply Hof, Hin. apply list_elem_of_lookup. eauto. }
  assert (Hsplit : StronglySorted Database.newer_first (take n S ++ drop n S))
    by (rewrite take_drop; exact HSS).
  split.
  { assert (Hrev : StronglySorted (flip Database.newer_first) (reverse (take n S)))
      by (apply StronglySorted_reverse; eapply StronglySorted_app_1_l, Hsplit).
    assert (Hsub : StronglySorted
                     (fun a b => a ∈ S /\ b ∈ S /\ flip Database.newer_first a b)
                     (reverse (take n S))).
    { clear HF Heach. revert Hin Hrev.
      generalize (reverse (take n S)). intros l Hl Hs.
      induction Hs as [|a l Hs IH Ha]; [ constructor | ].
      constructor.
      - apply IH. intros i Hi. apply Hl. right. exact Hi.
      - rewrite Forall_forall in Ha |- *. intros b Hb.
        split; [ apply Hl; left | split; [ apply Hl; right; exact Hb | apply Ha, Hb ] ]. }
    eapply StronglySorted_Forall2; [ | exact HF | exact Hsub ].
    intros a1 a2 h1 h2 H1 H2 (Ha1 & Ha2 & Hle).
    destruct (entry_of_fields pid a1 h1 (Hof _ Ha1) H1) as (_ & _ & _ & Ht1 & _).
    destruct (entry_of_fields pid a2 h2 (Hof _ Ha2) H2) as (_ & _ & _ & Ht2 & _).
    unfold flip, Database.newer_first in Hle. rewrite Ht1, Ht2 in Hle. exact Hle. }
  intros o r Ho Hr. rewrite elem_of_reverse in Hr.
  exact (StronglySorted_app_1_elem_of _ _ _ _ _ Hsplit Hr Ho).
Qed.

End HistoryFacts.

(** ** [triage_patient] *)

Section TriageFacts.
Import Triage.
Context {pydantic_core : Pydantic.PydanticCore}
  {rendering : Api.Rendering MedicalLlama.TriageResponse}.
#[local] Existing Instance Database.time_le_dec.
#[local] Existing Instance Database.newer_first_dec.
Variable workflow_run : string -> string -> list pyval -> outcome pyval.
Variable store_interaction :
  ChatMessage -> pyval -> Database.Database -> Database.Database.

Local Abbreviation triage_patient :=
  (Triage.triage_patient workflow_run store_interaction).

(** X22: the history handed to the workflow is always built (no
    exception), holds at most five entries, each made from one of the
    patient's own interactions, and is empty when the request does not ask
    for the history. *)
Theorem conversation_history_bounded (chat : ChatMessage) (db : Database.Database) :
  exists history,
    conversation_history chat db = Ret history
    /\ (length history <= 5)%nat
    /\ Forall (fun entry =>
                 exists i, i ∈ Patients.interactions_of (patient_id chat) db
                           /\ entry = history_entry i) history
    /\ (include_history chat = false -> history = []).
Proof.
  unfold conversation_history. destruct (include_history chat).
  2: { exists []. repeat split; [ simpl; lia | constructor ]. }
  unfold Database.recent_interactions. cbn [Database.sqlite_int_ok andb].
  change (Database.sqlite_int_ok 5) with true. cbv iota.
  unfold mbind, outcome_bind. cbn [obind].
  eexists. split; [ reflexivity | ].
  unfold Database.sql_limit. change (5 <? 0)%Z with false. cbv iota.
  change (Z.to_nat 5) with 5%nat.
  split; [ rewrite length_fmap, length_reverse, length_take; lia | ].
  split; [ | discriminate ].
  apply Forall_fmap, Forall_forall. intros i Hi. exists i. split; [ | reflexivity ].
  rewrite elem_of_reverse in Hi. apply subseteq_take in Hi.
  rewrite merge_sort_Permutation in Hi. exact Hi.
Qed.

(** X23: for a patient that is not registered, [triage_patient] is
    refused with status 404: the [HTTPException] raised inside the [try]
    passes the handlers unchanged; the workflow is not run, and nothing is
    stored or queued. *)
Theorem triage_unknown_patient_404 (chat : ChatMessage) (background_tasks : bool)
    (db : Database.Database) :
  Database.patients db !! patient_id chat = None ->
  triage_patient chat background_tasks db
  = (Raise (HTTPException 404 "Patient not found"), db, false)
  /\ Api.http_status
       (Api.respond (fst (fst (triage_patient chat background_tasks db)))) = 404.
Proof.
  intros H. unfold Triage.triage_patient. rewrite H. split; reflexivity.
Qed.

(** X24: whatever [triage_patient] raises is an [HTTPException]; when the
    workflow raises another exception the status is 500 and the detail is
    its text after "Triage failed: ", and when the workflow returns [None]
    the status is 500 with "Workflow returned no result"; in both cases
    nothing is stored or queued. *)
Theorem triage_patient_errors (chat : ChatMessage) (background_tasks : bool)
    (db : Database.Database) :
  (forall e, fst (fst (triage_patient chat background_tasks db)) = Raise e ->
             is_HTTPException e = true)
  /\ (forall row history cls msg,
        Database.patients db !! patient_id chat = Some row ->
        conversation_history chat db = Ret history ->
        workflow_run (patient_id chat) (message chat) history
        = Raise (PyError cls msg) ->
        triage_patient chat background_tasks db
        = (Raise (HTTPException 500 ("Triage failed: " +:+ msg)), db, false))
  /\ (forall row history,
        Database.patients db !! patient_id chat = Some row ->
        conversation_history chat db = Ret history ->
        workflow_run (patient_id chat) (message chat) history = Ret PNone ->
        triage_patient chat background_tasks db
        = (Raise (HTTPException 500 "Workflow returned no result"), db, false)).
Proof.
  split; [ | split ].
  - intros e. unfold Triage.triage_patient.
    destruct (Database.patients db !! patient_id chat);
      [ | cbn; intros [= <-]; reflexivity ].
    destruct (conversation_history chat db ≫= _) as [[| | | | | |]|[]]; cbn;
      try (intros [= <-]; reflexivity);
      match goal with
      | |- reraise ?r = _ -> _ => destruct r as [|[]]; cbn;
          first [ discriminate | intros [= <-]; reflexivity ]
      end.
  - intros row history cls msg Hrow Hh Hrun. unfold Triage.triage_patient.
    rewrite Hrow, Hh. unfold mbind, outcome_bind. cbn [obind]. rewrite Hrun.
    reflexivity.
  - intros row history Hrow Hh Hrun. unfold Triage.triage_patient.
    rewrite Hrow, Hh. unfold mbind, outcome_bind. cbn [obind]. rewrite Hrun.
    reflexivity.
Qed.

(** X25: a request for more information wins over an escalation: when
    the workflow's triage result sets [needs_more_info], the response of
    [triage_patient] has severity ["unknown"], confidence 1, no escalation,
    no care pathway and no action plan, whatever the severity, escalation
    flag, pathway and plan the workflow result holds. *)
Theorem more_info_hides_escalation (chat : ChatMessage) (db : Database.Database)
    (row : Database.Patient) (history : list pyval) (result triage_result : dict)
    (rec di : string) (sa : list string) :
  Database.patients db !! patient_id chat = Some row ->
  conversation_history chat db = Ret history ->
  workflow_run (patient_id chat) (message chat) history = Ret (PDict result) ->
  dict_get result "triage_result" (PDict []) = PDict triage_result ->
  truthy (dict_get triage_result "needs_more_info" (PBool false)) = true ->
  dict_get triage_result "recommendation" (PStr "Please provide more details")
  = PStr rec ->
  Pydantic.list_str_field "TriageResponse" "suggested_actions"
    (MedicalLlama.py_or (dict_get triage_result "suggested_actions" PNone) (PList []))
  = Ret sa ->
  dict_get triage_result "disclaimer" (PStr MedicalLlama.DEFAULT_DISCLAIMER)
  = PStr di ->
  triage_patient chat true db
  = (Ret {| MedicalLlama.severity := "unknown";
            MedicalLlama.confidence := Pydantic.NFloat 1.0;
            MedicalLlama.recommendation := rec;
            MedicalLlama.suggested_actions := sa;
            MedicalLlama.disclaimer := di;
            MedicalLlama.needs_escalation := false;
            MedicalLlama.care_pathway := None;
            MedicalLlama.action_plan := None |}, db, true).
Proof.
  intros Hrow Hh Hrun Ht Hm Hr Hs Hd. unfold Triage.triage_patient.
  rewrite Hrow, Hh. unfold mbind at 1, outcome_bind at 1. cbn [obind].
  rewrite Hrun.
  rewrite (format_response_needs_more_info result triage_result rec di sa
             Ht Hm Hr Hs Hd).
  reflexivity.
Qed.

End TriageFacts.

(** ** Instances *)

Section Instances.
#[local] Existing Instance Samples.core.
#[local] Existing Instance MoreSamples.strict_rendering.

(** An instance: a workflow state with a case id and an action only. *)
Lemma chat_triage_without_triage_witness :
  dict_get
    (match fst (Api.chat_triage MoreSamples.bare_workflow
                  (Samples.request "I feel unwell") tt) with
     | Ret body => body
     | Raise _ => []
     end) "recommendation" PNone = PStr Api.GREEN_MESSAGE.
Proof.
  rewrite (chat_triage_without_triage MoreSamples.bare_workflow
             (Samples.request "I feel unwell") tt tt MoreSamples.bare_state
             eq_refl eq_refl eq_refl).
  reflexivity.
Defined.

(** An instance: the answer to the recording workflow. *)
Lemma process_chat_message_matches_severity_witness :
  Api.response_message MoreSamples.green_response = Api.GREEN_MESSAGE
  <-> Api.severity_level (Api.triage MoreSamples.green_response) <> "RED"
      /\ Api.severity_level (Api.triage MoreSamples.green_response) <> "AMBER".
Proof.
  apply (process_chat_message_matches_severity Samples.recording_workflow
           (Samples.request "I have a headache") [] MoreSamples.green_response).
  reflexivity.
Defined.

(** An instance: the same state at the two endpoints. *)
Lemma missing_triage_quick_and_chat_witness :
  Api.quick_triage MoreSamples.bare_workflow (Samples.request "I feel unwell") tt
  = (Ret [ ("severity", PNone); ("rationale", PNone);
           ("red_flags", PList []); ("action", PNone) ], tt)
  /\ Api.http_status
       (Api.respond
          (fst (Api.process_chat MoreSamples.bare_workflow
                  (Samples.request "I feel unwell") tt))) = 500.
Proof.
  apply (missing_triage_quick_and_chat MoreSamples.bare_workflow
           (Samples.request "I feel unwell") tt tt MoreSamples.bare_state);
    reflexivity.
Defined.

(** An instance: the body of [test_chat_missing_fields]. *)
Lemma request_without_message_rejected_witness :
  exists detail,
    Api.post_route (Api.process_chat Samples.recording_workflow)
      MoreSamples.missing_message_body []
    = (Api.HttpError 422 detail, []).
Proof.
  apply (request_without_message_rejected
           (Api.process_chat Samples.recording_workflow)
           MoreSamples.missing_message_body []).
  intros d [= <-]. reflexivity.
Defined.

(** An instance: five instructions, the fourth not a string. *)
Lemma patient_template_first_three_witness :
  SummaryChain.patient_template Samples.no_repr Samples.sample_triage
    (PDict MoreSamples.long_action)
  = SummaryChain.patient_template Samples.no_repr Samples.sample_triage
      (PDict MoreSamples.short_action).
Proof.
  apply (patient_template_first_three Samples.no_repr Samples.sample_triage
           MoreSamples.long_action MoreSamples.short_action
           [PStr "Call emergency services"; PStr "Do not drive"; PStr "Stay calm";
            PInt 4; PStr "Unlock the door"]);
    reflexivity.
Defined.


(** An instance: symptoms with a null list of associated symptoms. *)
Lemma null_associated_symptoms_raise_witness :
  SummaryChain.generate_summaries Samples.no_repr true Samples.no_env
    Samples.polite_service "my chest hurts"
    (PDict MoreSamples.null_symptoms) Samples.sample_triage Samples.sample_action
  = Raise (PyError "TypeError" "can only join an iterable").
Proof.
  apply (null_associated_symptoms_raise Samples.no_repr true Samples.no_env
           Samples.polite_service "my chest hurts" MoreSamples.null_symptoms
           Samples.sample_triage Samples.sample_action
           "Based on your symptoms, you've been triaged as RED. Recommended action: emergency. Instructions: Call emergency services; Do not drive; Stay calm. This is not a medical diagnosis. Seek professional help if symptoms worsen.");
    reflexivity.
Defined.

(** An instance: two messages, symptoms that hold a chief complaint. *)
Lemma user_input_only_a_default_witness :
  SummaryChain.generate_summaries Samples.no_repr false Samples.no_env
    Samples.unreachable_service "my chest hurts"
    Samples.sample_symptoms Samples.sample_triage Samples.sample_action
  = SummaryChain.generate_summaries Samples.no_repr false Samples.no_env
      Samples.unreachable_service "something else entirely"
      Samples.sample_symptoms Samples.sample_triage Samples.sample_action.
Proof.
  apply (user_input_only_a_default Samples.no_repr false Samples.no_env
           Samples.unreachable_service "my chest hurts" "something else entirely"
           [ ("chief_complaint", PStr "chest pain");
             ("duration", PStr "2 days");
             ("associated_symptoms", PList [PStr "dizziness"; PStr "nausea"]) ]
           (PStr "chest pain") Samples.sample_triage Samples.sample_action).
  reflexivity.
Defined.

(** An instance: Ada registered in the empty database, then once more. *)
Lemma register_twice_refused_witness :
  Patients.register_patient MoreSamples.dumps_empty MoreSamples.ada 200 201
    (snd (Patients.register_patient MoreSamples.dumps_empty MoreSamples.ada 100 101
            MoreSamples.empty_db))
  = (Raise (HTTPException 400 "Patient already registered"),
     snd (Patients.register_patient MoreSamples.dumps_empty MoreSamples.ada 100 101
            MoreSamples.empty_db)).
Proof.
  apply (register_twice_refused MoreSamples.dumps_empty MoreSamples.ada
           MoreSamples.ada (Patients.returned "p1" MoreSamples.ada) 100 101 200 201
           MoreSamples.empty_db);
    reflexivity.
Defined.

(** An instance: Ada, whose lists are all absent, registered and read. *)
Lemma register_then_get_witness :
  exists db',
    Patients.register_patient MoreSamples.dumps_empty MoreSamples.ada 100 101
      MoreSamples.empty_db
    = (Ret (Patients.returned "p1" MoreSamples.ada), db')
    /\ Patients.get_patient MoreSamples.loads_empty "p1" db'
       = (Ret (Patients.returned "p1" MoreSamples.ada), db').
Proof.
  apply (register_then_get MoreSamples.dumps_empty MoreSamples.loads_empty
           MoreSamples.ada 100 101 MoreSamples.empty_db);
    [ reflexivity | reflexivity | repeat constructor; discriminate ].
Defined.

(** An instance: a second patient registered in the clinic, the two
    defaults reading the clock at 200 and at 201. *)
Lemma register_adds_one_row_witness :
  exists row,
    Database.patients
      (snd (Patients.register_patient MoreSamples.dumps_empty
              MoreSamples.ada_renamed 200 201 MoreSamples.clinic)) !! "p2"
    = Some row
    /\ Database.created_at row = Some 200
    /\ Database.updated_at row = Some 201.
Proof.
  destruct (register_adds_one_row MoreSamples.dumps_empty MoreSamples.ada_renamed
              (Patients.returned "p2" MoreSamples.ada_renamed) 200 201
              MoreSamples.clinic _ eq_refl)
    as (_ & _ & _ & _ & _ & row & Hrow & _ & Hc & Hu).
  exists row. repeat split; assumption.
Defined.

(** An instance: Ada updated with a body that names another patient. *)
Lemma update_keeps_the_key_witness :
  exists db',
    Patients.update_patient MoreSamples.dumps_empty "p1" MoreSamples.ada_renamed 200
      MoreSamples.clinic
    = (Ret (Patients.returned "p1" MoreSamples.ada_renamed), db')
    /\ dom (Database.patients db') = dom (Database.patients MoreSamples.clinic).
Proof.
  destruct (update_keeps_the_key MoreSamples.dumps_empty "p1"
              MoreSamples.ada_renamed 200 MoreSamples.clinic
              (Patients.row_of MoreSamples.dumps_empty MoreSamples.ada
                 (Some "en") (Some 100) 101) eq_refl eq_refl)
    as (db' & row' & Hret & _ & Hdom & _).
  exists db'. split; assumption.
Defined.

(** An instance: Ada updated in the clinic and read. *)
Lemma update_then_get_witness :
  exists db',
    Patients.update_patient MoreSamples.dumps_empty "p1" MoreSamples.ada_renamed 200
      MoreSamples.clinic
    = (Ret (Patients.returned "p1" MoreSamples.ada_renamed), db')
    /\ Patients.get_patient MoreSamples.loads_empty "p1" db'
       = (Ret (Patients.returned "p1" MoreSamples.ada_renamed), db').
Proof.
  apply (update_then_get MoreSamples.dumps_empty MoreSamples.loads_empty "p1"
           MoreSamples.ada_renamed 200 MoreSamples.clinic
           (Patients.row_of MoreSamples.dumps_empty MoreSamples.ada
              (Some "en") (Some 100) 101));
    [ reflexivity | reflexivity | repeat constructor; discriminate ].
Defined.

(** An instance: a patient the clinic does not know. *)
Lemma unknown_patient_is_404_witness :
  Patients.get_patient MoreSamples.loads_empty "p5" MoreSamples.clinic
  = (Raise (HTTPException 404 "Patient not found"), MoreSamples.clinic)
  /\ Patients.update_patient MoreSamples.dumps_empty "p5" MoreSamples.ada 200
       MoreSamples.clinic
     = (Raise (HTTPException 404 "Patient not found"), MoreSamples.clinic)
  /\ Patients.get_conversation_history "p5" 10 MoreSamples.clinic
     = (Raise (HTTPException 404 "Patient not found"), MoreSamples.clinic).
Proof.
  apply (unknown_patient_is_404 MoreSamples.dumps_empty MoreSamples.loads_empty
           "p5" MoreSamples.ada 200 10 MoreSamples.clinic).
  reflexivity.
Defined.

(** An instance: the last two of Ada's three interactions. *)
Lemma conversation_history_most_recent_witness :
  exists history,
    Patients.get_conversation_history "p1" 2 MoreSamples.clinic
    = (Ret history, MoreSamples.clinic)
    /\ length history = 2%nat
    /\ StronglySorted
         (fun h1 h2 => (Patients.timestamp h1 <= Patients.timestamp h2)%Z) history.
Proof.
  destruct (conversation_history_most_recent "p1" 2 MoreSamples.clinic
              (Patients.row_of MoreSamples.dumps_empty MoreSamples.ada
                 (Some "en") (Some 100) 101))
    as (rows & older & history & Hret & _ & _ & Hlen & _ & Hsorted & _).
  - reflexivity.
  - lia.
  - repeat constructor; eexists; reflexivity.
  - exists history. repeat split; assumption.
Defined.

(** An instance: a message from a patient the clinic does not know. *)
Lemma triage_unknown_patient_404_witness :
  Triage.triage_patient MoreSamples.asking_workflow MoreSamples.no_store
    MoreSamples.stranger true MoreSamples.clinic
  = (Raise (HTTPException 404 "Patient not found"), MoreSamples.clinic, false)
  /\ Api.http_status
       (Api.respond
          (fst (fst (Triage.triage_patient MoreSamples.asking_workflow
                       MoreSamples.no_store MoreSamples.stranger true
                       MoreSamples.clinic)))) = 404.
Proof.
  apply (triage_unknown_patient_404 MoreSamples.asking_workflow
           MoreSamples.no_store MoreSamples.stranger true MoreSamples.clinic).
  reflexivity.
Defined.

(** An instance: a workflow that asks a question back and flags an
    escalation with severity emergency. *)
Lemma more_info_hides_escalation_witness :
  Triage.triage_patient MoreSamples.asking_workflow MoreSamples.no_store
    MoreSamples.chat true MoreSamples.clinic
  = (Ret {| MedicalLlama.severity := "unknown";
            MedicalLlama.confidence := Pydantic.NFloat 1.0;
            MedicalLlama.recommendation := "How long have you had it?";
            MedicalLlama.suggested_actions := [];
            MedicalLlama.disclaimer := MedicalLlama.DEFAULT_DISCLAIMER;
            MedicalLlama.needs_escalation := false;
            MedicalLlama.care_pathway := None;
            MedicalLlama.action_plan := None |}, MoreSamples.clinic, true).
Proof.
  apply (more_info_hides_escalation MoreSamples.asking_workflow
           MoreSamples.no_store MoreSamples.chat MoreSamples.clinic
           (Patients.row_of MoreSamples.dumps_empty MoreSamples.ada
              (Some "en") (Some 100) 101)
           [ PDict [("user", PStr "first"); ("assistant", PStr "{}")];
             PDict [("user", PStr "second"); ("assistant", PStr "{}")];
             PDict [("user", PStr "third"); ("assistant", PStr "{}")] ]
           MoreSamples.asking_result
           [ ("needs_more_info", PBool true);
             ("recommendation", PStr "How long have you had it?") ]);
    reflexivity.
Defined.

End Instances.
